(** * Commercial video template editor: a shallow embedding of the web client

    The definitions below embed the React components of the client
    (TemplateEditor, FrameUploader, ContinuityValidator, Dashboard) as
    functions over explicit component state.  A [useState] cell is a
    record field and an event handler is a function to the next state,
    run on the state of the render that created it (the component is
    rendered again between two events).  The requests, alerts and
    navigations of a handler are returned next to the state, and the
    reply of a remote call is an argument of the handler that awaits
    it.  The two backend functions the properties need, the continuity
    comparison and the entry check of a production, are not part of
    the client; they are modelled from the specification and marked as
    such. *)

From Stdlib Require Import QArith Ascii String.
From stdpp Require Import base option list gmap strings pretty.

Open Scope string_scope.

(** ** JavaScript idioms used by the components *)
Module Js.

(** [a || b] where [a] is a string: the empty string is falsy. *)
Definition str_or (a b : string) : string :=
  if String.eqb a "" then b else a.

(** Truthiness of a property that may be missing ([None] is
    [undefined]) and otherwise holds a string. *)
Definition truthy (a : option string) : bool :=
  match a with
  | Some s => negb (String.eqb s "")
  | None => false
  end.

(** [a || b] where [a] is such a property. *)
Definition opt_or (a : option string) (b : string) : string :=
  match a with
  | Some s => str_or s b
  | None => b
  end.

(** [s.includes(search)]: [search] occurs somewhere in [s]. *)
Fixpoint includes (s search : string) : bool :=
  String.prefix search s
  || match s with
     | EmptyString => false
     | String _ rest => includes rest search
     end.

(** [s.split(',')[1]]: the piece between the first comma and the
    next, [None] ([undefined]) when [s] has no comma. *)
Fixpoint until_comma (s : string) : string :=
  match s with
  | EmptyString => EmptyString
  | String c rest => if Ascii.eqb c ","%char then EmptyString else String c (until_comma rest)
  end.

Fixpoint second_piece (s : string) : option string :=
  match s with
  | EmptyString => None
  | String c rest => if Ascii.eqb c ","%char then Some (until_comma rest) else second_piece rest
  end.

(** [array.filter((_, i) => keep(i))], the callback looking at the
    position only; [i] is the position of the head of [l]. *)
Fixpoint filter_index {A} (keep : nat -> bool) (i : nat) (l : list A) : list A :=
  match l with
  | [] => []
  | x :: rest =>
      if keep i then x :: filter_index keep (S i) rest
      else filter_index keep (S i) rest
  end.

End Js.

(** ** JSON payloads exchanged with the backend *)
Module Api.

(** A tracked visual element of an analysed frame. *)
Record element := Element {
  type : string;
  description : string
}.

(** [result.analysis] of [POST /api/prompts/analyze-frame]. *)
Record FrameAnalysis := {
  subject_position : option string;
  camera_angle : option string;
  lighting : option string;
  mood : option string;
  colors : option (list string);
  tracked_elements : option (list element);
  video_prompt : option string;
  next_scene_suggestion : option string
}.

(** One warning of a continuity report. *)
Record warning := Warning {
  severity : string;
  w_element : string;
  message : string
}.

(** The reply of [POST /api/continuity/validate]. *)
Record validation := Validation {
  is_valid : bool;
  warnings : list warning;
  suggestions : list string
}.

(** [result.optimized] of [POST /api/prompts/optimize]. *)
Record optimized := {
  action : option string;
  optimized_action : option string;
  emotion : option string;
  optimized_emotion : option string;
  dialogue : option string;
  keywords : list string
}.

End Api.

(** ** FrameUploader.jsx *)
Module FrameUploader.
Import Api.

Record uploader := {
  isDragging : bool;
  isAnalyzing : bool;
  preview : option string;
  analysis : option FrameAnalysis;
  error : option string
}.

Definition setIsAnalyzing (b : bool) (u : uploader) : uploader :=
  {| isDragging := isDragging u; isAnalyzing := b; preview := preview u;
     analysis := analysis u; error := error u |}.

Definition setPreview (p : option string) (u : uploader) : uploader :=
  {| isDragging := isDragging u; isAnalyzing := isAnalyzing u; preview := p;
     analysis := analysis u; error := error u |}.

Definition setAnalysis (a : option FrameAnalysis) (u : uploader) : uploader :=
  {| isDragging := isDragging u; isAnalyzing := isAnalyzing u;
     preview := preview u; analysis := a; error := error u |}.

Definition setError (e : option string) (u : uploader) : uploader :=
  {| isDragging := isDragging u; isAnalyzing := isAnalyzing u;
     preview := preview u; analysis := analysis u; error := e |}.

(** The parsed body of the analyze-frame response: [result.ok] with
    [result.analysis], or a falsy [ok] with an optional
    [result.error]. *)
Inductive result :=
| Ok (analysis : FrameAnalysis)
| NotOk (error : option string).

(** What awaiting the request gives: a parsed body, or an exception
    ([fetch] rejected, or [response.json()] could not parse) carrying
    [err.message]. *)
Inductive outcome :=
| Resolved (r : result)
| Rejected (message : string).

(** The request came back with a falsy [ok], or did not come back. *)
Definition failed (o : outcome) : Prop :=
  match o with
  | Resolved (Ok _) => False
  | Resolved (NotOk _) | Rejected _ => True
  end.

(** The JSON body posted to [/api/prompts/analyze-frame]. *)
Record request := {
  image_data : option string;
  mime_type : string;
  is_first_scene : bool
}.

(** [analyzeFrame] of an uploader rendered with the [isFirstScene]
    prop.  The result holds the next state, the body of the request
    that was sent, and the argument handed to the [onAnalysisComplete]
    prop when the handler calls it. *)
Definition analyzeFrame (isFirstScene : bool) (imageData : option string)
    (mimeType : string) (o : outcome) (u : uploader)
  : uploader * request * option FrameAnalysis :=
  let u := setError None (setIsAnalyzing true u) in
  let body :=
    {| image_data := imageData; mime_type := mimeType;
       is_first_scene := isFirstScene |} in
  let '(u, called) :=
    match o with
    | Resolved (Ok a) => (setAnalysis (Some a) u, Some a)
    | Resolved (NotOk e) =>
        (setError (Some (Js.opt_or e "Analysis failed")) u, None)
    | Rejected message =>
        (setError (Some ("Error: " +:+ message)) u, None)
    end in
  (setIsAnalyzing false u, body, called).

(** [reader.onload] of [processImage] for a file of MIME type
    [fileType] read as the data URL [base64Data]: the preview is shown,
    the previous error and analysis are cleared, then the part of the
    URL after the comma is sent. *)
Definition processImage (isFirstScene : bool) (fileType base64Data : string)
    (o : outcome) (u : uploader)
  : uploader * request * option FrameAnalysis :=
  analyzeFrame isFirstScene (Js.second_piece base64Data) fileType o
    (setAnalysis None (setError None (setPreview (Some base64Data) u))).

(** The last item of the analysis grid: label and text of the
    suggestion that is displayed, if any. *)
Definition suggestion_item (isFirstScene : bool) (a : FrameAnalysis)
  : option (string * string) :=
  if isFirstScene && Js.truthy (video_prompt a) then
    Some ("Prompt Generado", Js.opt_or (video_prompt a) "")
  else if negb isFirstScene && Js.truthy (next_scene_suggestion a) then
    Some ("Sugerencia Siguiente Escena", Js.opt_or (next_scene_suggestion a) "")
  else None.

End FrameUploader.

(** ** TemplateEditor.jsx *)
Module TemplateEditor.

(** A scene of the template, with the fields [addScene] creates and
    the two the form adds later ([dialogue], [voice_gender]). *)
Module Scene.
Record t := {
  scene_id : nat;
  name : string;
  duration : Q;
  prompt : string;
  emotion : string;
  camera_movement : string;
  lighting : string;
  reference_images : list string;
  dialogue : option string;
  voice_gender : option string
}.

(** The [field] and [value] arguments of [updateScene], as its call
    sites pair them. *)
Inductive field_value :=
| Name (value : string)
| Duration (value : Q)
| Prompt (value : string)
| Dialogue (value : string)
| VoiceGender (value : string)
| Emotion (value : string)
| CameraMovement (value : string)
| Lighting (value : string).

Definition set_scene_id (i : nat) (s : t) : t :=
  {| scene_id := i; name := name s; duration := duration s;
     prompt := prompt s; emotion := emotion s;
     camera_movement := camera_movement s; lighting := lighting s;
     reference_images := reference_images s; dialogue := dialogue s;
     voice_gender := voice_gender s |}.

(** [{ ...s, [field]: value }] *)
Definition with_field (fv : field_value) (s : t) : t :=
  {| scene_id := scene_id s;
     name := match fv with Name v => v | _ => name s end;
     duration := match fv with Duration v => v | _ => duration s end;
     prompt := match fv with Prompt v => v | _ => prompt s end;
     emotion := match fv with Emotion v => v | _ => emotion s end;
     camera_movement :=
       match fv with CameraMovement v => v | _ => camera_movement s end;
     lighting := match fv with Lighting v => v | _ => lighting s end;
     reference_images := reference_images s;
     dialogue := match fv with Dialogue v => Some v | _ => dialogue s end;
     voice_gender :=
       match fv with VoiceGender v => Some v | _ => voice_gender s end |}.
End Scene.

Module Subject.
Record t := { type : string; description : string }.
End Subject.

Module Product.
Record t := { name : string; category : string; key_features : list string }.
End Product.

Module BrandGuidelines.
Record t := { mood : string; color_palette : list string; style : string }.
End BrandGuidelines.

Module Template.
Record t := {
  name : string;
  description : string;
  duration_target : Q;
  subject : Subject.t;
  product : Product.t;
  brand_guidelines : BrandGuidelines.t;
  scenes : list Scene.t
}.

(** [{ ...template, scenes: newScenes }] *)
Definition with_scenes (newScenes : list Scene.t) (template : t) : t :=
  {| name := name template; description := description template;
     duration_target := duration_target template;
     subject := subject template; product := product template;
     brand_guidelines := brand_guidelines template;
     scenes := newScenes |}.
End Template.

(** The validation report that comes with an optimized prompt. *)
Record optimizer_validation := {
  confidence_score : option Q;
  notes : option string;
  issues : list string
}.

(** The state [handleOptimize] stores for PromptPreview. *)
Record preview := {
  sceneIndex : nat;
  original_action : string;
  original_emotion : string;
  optimized : Api.optimized;
  validation : optimizer_validation;
  optimizedData : Api.optimized
}.

(** The [useState] cells of the component. [imageAnalysis] is the
    object keyed by scene position. *)
Record editor := {
  showPreview : bool;
  optimizationPreview : option preview;
  optimizingScene : option nat;
  loading : bool;
  imageAnalysis : gmap nat Api.FrameAnalysis;
  template : Template.t
}.

Definition setTemplate (t : Template.t) (st : editor) : editor :=
  {| showPreview := showPreview st;
     optimizationPreview := optimizationPreview st;
     optimizingScene := optimizingScene st; loading := loading st;
     imageAnalysis := imageAnalysis st; template := t |}.

Definition setImageAnalysis (m : gmap nat Api.FrameAnalysis) (st : editor) : editor :=
  {| showPreview := showPreview st;
     optimizationPreview := optimizationPreview st;
     optimizingScene := optimizingScene st; loading := loading st;
     imageAnalysis := m; template := template st |}.

Definition setOptimizationPreview (p : option preview) (st : editor) : editor :=
  {| showPreview := showPreview st; optimizationPreview := p;
     optimizingScene := optimizingScene st; loading := loading st;
     imageAnalysis := imageAnalysis st; template := template st |}.

Definition setOptimizingScene (i : option nat) (st : editor) : editor :=
  {| showPreview := showPreview st;
     optimizationPreview := optimizationPreview st;
     optimizingScene := i; loading := loading st;
     imageAnalysis := imageAnalysis st; template := template st |}.

Definition setLoading (b : bool) (st : editor) : editor :=
  {| showPreview := showPreview st;
     optimizationPreview := optimizationPreview st;
     optimizingScene := optimizingScene st; loading := b;
     imageAnalysis := imageAnalysis st; template := template st |}.

(** The initial values of the cells. *)
Definition initial_template : Template.t :=
  {| Template.name := ""; Template.description := "";
     Template.duration_target := 30 # 1;
     Template.subject := {| Subject.type := ""; Subject.description := "" |};
     Template.product :=
       {| Product.name := ""; Product.category := "";
          Product.key_features := [] |};
     Template.brand_guidelines :=
       {| BrandGuidelines.mood := ""; BrandGuidelines.color_palette := [];
          BrandGuidelines.style := "" |};
     Template.scenes := [] |}.

Definition initial : editor :=
  {| showPreview := false; optimizationPreview := None;
     optimizingScene := None; loading := false; imageAnalysis := ∅;
     template := initial_template |}.

(** [`Scene ${i + 1}`] *)
Definition scene_name (i : nat) : string := "Scene " +:+ pretty (i + 1)%nat.

(** [addScene]: the new template handed to [setTemplate]. *)
Definition addScene (template : Template.t) : Template.t :=
  let newScene :=
    {| Scene.scene_id := length (Template.scenes template);
       Scene.name := scene_name (length (Template.scenes template));
       Scene.duration := 15 # 2;
       Scene.prompt := "";
       Scene.emotion := "neutral";
       Scene.camera_movement := "static";
       Scene.lighting := "natural";
       Scene.reference_images := [];
       Scene.dialogue := None;
       Scene.voice_gender := None |} in
  Template.with_scenes (Template.scenes template ++ [newScene]) template.

(** The body of the [forEach] in [removeScene]: [scene_id] and [name]
    are overwritten with the new position. *)
Definition renumber (i : nat) (scene : Scene.t) : Scene.t :=
  Scene.with_field (Scene.Name (scene_name i)) (Scene.set_scene_id i scene).

(** [removeScene]: the scene at [index] is filtered out, the remaining
    ones are renumbered.  The [forEach] writes into the scene objects
    themselves, which the outgoing state shares; that state is dropped
    by [setTemplate], so the handler is the function below. *)
Definition removeScene (index : nat) (template : Template.t) : Template.t :=
  let newScenes :=
    Js.filter_index (fun i => negb (i =? index)%nat) 0 (Template.scenes template) in
  Template.with_scenes (imap renumber newScenes) template.

(** [updateScene], called by the controls of the scene card at
    [index].  Cards are rendered from [template.scenes], so the write
    [newScenes[index] = ...] is in range; past the end JavaScript
    would grow the array around an object holding [field] alone, which
    has no scene to stand for and is [None] here. *)
Definition updateScene (index : nat) (fv : Scene.field_value)
    (template : Template.t) : option Template.t :=
  scene ← Template.scenes template !! index;
  Some (Template.with_scenes
          (<[index := Scene.with_field fv scene]> (Template.scenes template))
          template).

(** The object [handleOptimize] posts to the prompt optimizer. *)
Record optimizationRequest := {
  action : string;
  emotion : string;
  dialogue : string;
  voice_gender : string;
  product_tone : string;
  scene_type : string;
  image_context : option Api.FrameAnalysis
}.

(** What the handlers do to the outside world. *)
Inductive effect :=
| PreventDefault
| Alert (message : string)
| Navigate (path : string)
| CreateProject (template : Template.t) (autoMode : bool)
| OptimizePrompt (request : optimizationRequest).

(** What awaiting [createProject] gives. *)
Inductive create_outcome :=
| Created
| CreateFailed (message : string).

(** [handleSubmit] *)
Definition handleSubmit (o : create_outcome) (template : Template.t) : list effect :=
  PreventDefault ::
  if String.eqb (Template.name template) ""
     || (length (Template.scenes template) =? 0)%nat
  then [Alert "Por favor completa el nombre y agrega al menos una escena"]
  else
    CreateProject template true ::
    match o with
    | Created => [Alert "¡Proyecto creado exitosamente!"; Navigate "/"]
    | CreateFailed message => [Alert ("Error al crear proyecto: " +:+ message)]
    end.

(** The parsed reply of the optimizer, and what awaiting it gives. *)
Inductive optimize_result :=
| OptOk (optimized : Api.optimized) (validation : optimizer_validation)
| OptNotOk (error : option string).

Inductive optimize_outcome :=
| OptResolved (r : optimize_result)
| OptRejected (message : string).

(** The request object of [handleOptimize], with the image context
    added by the [if] that follows the literal. *)
Definition buildOptimizationRequest (template : Template.t)
    (imageAnalysis : gmap nat Api.FrameAnalysis)
    (sceneIndex : nat) (scene : Scene.t) : optimizationRequest :=
  {| action := Js.str_or (Scene.prompt scene) "";
     emotion := Js.str_or (Scene.emotion scene) "neutral";
     dialogue := Js.opt_or (Scene.dialogue scene) "";
     voice_gender := Js.opt_or (Scene.voice_gender scene) "female";
     product_tone :=
       Js.str_or (BrandGuidelines.mood (Template.brand_guidelines template))
                 "professional";
     scene_type := "general";
     image_context :=
       if (sceneIndex =? 0)%nat then imageAnalysis !! 0%nat else None |}.

(** [handleOptimize], run from the button of the card at
    [sceneIndex]; [None] when no such card is rendered. *)
Definition handleOptimize (sceneIndex : nat) (o : optimize_outcome) (st : editor)
  : option (editor * list effect) :=
  scene ← Template.scenes (template st) !! sceneIndex;
  let st := setLoading true (setOptimizingScene (Some sceneIndex) st) in
  let request :=
    buildOptimizationRequest (template st) (imageAnalysis st) sceneIndex scene in
  let '(st, alerts) :=
    match o with
    | OptResolved (OptOk optimized validation) =>
        (setOptimizationPreview
           (Some {| sceneIndex := sceneIndex;
                    original_action := Js.str_or (Scene.prompt scene) "Sin prompt";
                    original_emotion := Js.str_or (Scene.emotion scene) "neutral";
                    optimized := optimized;
                    validation := validation;
                    optimizedData := optimized |}) st, [])
    | OptResolved (OptNotOk error) =>
        (st, [Alert ("Error: " +:+ default "undefined" error)])
    | OptRejected message =>
        (st, [Alert ("Error al optimizar: " +:+ message)])
    end in
  Some (setLoading false st, OptimizePrompt request :: alerts).

(** [applyOptimization], the accept button of the preview, which is
    rendered inside the card at the preview's [sceneIndex]; [None]
    when that card does not exist. *)
Definition applyOptimization (st : editor) : option editor :=
  match optimizationPreview st with
  | None => Some st
  | Some p =>
      scene ← Template.scenes (template st) !! sceneIndex p;
      let newScene :=
        Scene.with_field
          (Scene.Emotion
             (Js.opt_or (Api.emotion (optimizedData p))
                (Js.opt_or (Api.optimized_emotion (optimizedData p))
                   (Scene.emotion scene))))
          (Scene.with_field
             (Scene.Prompt
                (Js.opt_or (Api.action (optimizedData p))
                   (Js.opt_or (Api.optimized_action (optimizedData p))
                      (Scene.prompt scene))))
             scene) in
      let newScenes := <[sceneIndex p := newScene]> (Template.scenes (template st)) in
      Some (setOptimizingScene None
              (setOptimizationPreview None
                 (setTemplate (Template.with_scenes newScenes (template st)) st)))
  end.

(** [rejectOptimization] *)
Definition rejectOptimization (st : editor) : editor :=
  setOptimizingScene None (setOptimizationPreview None st).

(** The [onAnalysisComplete] prop given to the FrameUploader of a
    card; [index] and [scene] are the variables of the [map] callback
    it closes over. *)
Definition onAnalysisComplete (index : nat) (scene : Scene.t)
    (analysis : Api.FrameAnalysis) (st : editor) : option editor :=
  let st := setImageAnalysis (<[index := analysis]> (imageAnalysis st)) st in
  if (index =? 0)%nat then
    let videoPrompt := Js.opt_or (Api.video_prompt analysis) "" in
    if negb (String.eqb videoPrompt "") then
      t ← updateScene index (Scene.Prompt videoPrompt) (template st);
      Some (setTemplate t st)
    else Some st
  else
    let continuityContext := Js.opt_or (Api.next_scene_suggestion analysis) "" in
    let currentPrompt := Js.str_or (Scene.prompt scene) "" in
    if negb (String.eqb continuityContext "")
       && negb (Js.includes currentPrompt "[CONTINUITY]")
    then
      t ← updateScene index
            (Scene.Prompt
               ("[CONTINUITY: " +:+ continuityContext +:+ "] " +:+ currentPrompt))
            (template st);
      Some (setTemplate t st)
    else Some st.

(** An analysis arriving at the card at [index] of the current
    render; [None] when no such card is rendered. *)
Definition analysisComplete (index : nat) (analysis : Api.FrameAnalysis)
    (st : editor) : option editor :=
  scene ← Template.scenes (template st) !! index;
  onAnalysisComplete index scene analysis st.

(** An image dropped on the uploader of the card at [index], which is
    rendered with [isFirstScene={index === 0}]: the uploader runs
    [processImage], which awaits [analyzeFrame], and the editor
    receives the callback, if it is made. *)
Definition frameDropped (index : nat) (fileType base64Data : string)
    (o : FrameUploader.outcome) (u : FrameUploader.uploader) (st : editor)
  : option (FrameUploader.uploader * editor) :=
  match FrameUploader.processImage (index =? 0)%nat fileType base64Data o u with
  | (u, _, Some analysis) => st ← analysisComplete index analysis st; Some (u, st)
  | (u, _, None) => Some (u, st)
  end.

(** The props of the ContinuityValidator of the card at [index],
    when it is rendered. *)
Definition validatorProps (index : nat) (st : editor)
  : option (list Api.element * list Api.element) :=
  if (0 <? index)%nat then
    previous ← imageAnalysis st !! (index - 1)%nat;
    current ← imageAnalysis st !! index;
    Some (default [] (Api.tracked_elements previous),
          default [] (Api.tracked_elements current))
  else None.

End TemplateEditor.

(** ** ContinuityValidator.jsx *)
Module ContinuityValidator.

Record component := {
  validation : option Api.validation;
  loading : bool
}.

Definition setValidation (v : option Api.validation) (c : component) : component :=
  {| validation := v; loading := loading c |}.

Definition setLoading (b : bool) (c : component) : component :=
  {| validation := validation c; loading := b |}.

Definition initial : component := {| validation := None; loading := false |}.

(** The JSON body of the validation request. *)
Record request := {
  previous_elements : list Api.element;
  current_elements : list Api.element
}.

Inductive effect :=
| Fetch (url method : string) (body : request)
| ConsoleError (label error : string).

(** What awaiting the request and [response.json()] gives. *)
Inductive outcome :=
| Resolved (result : Api.validation)
| Rejected (error : string).

(** [validateContinuity]; a prop that was not passed is [None]. *)
Definition validateContinuity
    (previousElements currentElements : option (list Api.element))
    (o : outcome) (c : component) : component * list effect :=
  match previousElements, currentElements with
  | Some previousElements, Some currentElements =>
      let c := setLoading true c in
      let call :=
        Fetch "http://localhost:8003/api/continuity/validate" "POST"
              {| previous_elements := previousElements;
                 current_elements := currentElements |} in
      let '(c, logged) :=
        match o with
        | Resolved result => (setValidation (Some result) c, [])
        | Rejected error => (c, [ConsoleError "Validation error:" error])
        end in
      (setLoading false c, call :: logged)
  | _, _ => (c, [])
  end.

(** The external requests among the effects of a handler. *)
Definition is_request (e : effect) : bool :=
  match e with
  | Fetch _ _ _ => true
  | ConsoleError _ _ => false
  end.

Definition requests (log : list effect) : list effect :=
  List.filter is_request log.

(** The text of the header badge, once a validation is there. *)
Definition status_badge (c : component) : option string :=
  v ← validation c;
  Some (if Api.is_valid v then "Continuidad OK" else "Revisar Continuidad").

(** The comparison that answers [POST /api/continuity/validate] runs
    in the backend, whose code is not part of the client sources; the
    definitions of this section follow section 4.3 of the specification.
    The similarity test is implementation-defined and is the parameter
    [drifts]; severities are spelled as the client reads them. *)
Section Comparison.
Variable drifts : string -> string -> bool.

Definition same_type (e c : Api.element) : bool :=
  String.eqb (Api.type e) (Api.type c).

(** Modelled from the spec: the backend's check of one tracked element
    of the previous scene, which is not among the sources.  A
    corresponding element is looked up in the current scene by [type]:
    none gives a HIGH warning, and when there are some but the
    description drifts from each of them the warning is MEDIUM;
    otherwise there is no warning for the element. *)
Definition compare_element (current : list Api.element) (e : Api.element)
  : list Api.warning :=
  match List.filter (same_type e) current with
  | [] => [Api.Warning "high" (Api.type e) "element absent in current scene"]
  | found =>
      if forallb (fun c => drifts (Api.description e) (Api.description c)) found
      then [Api.Warning "medium" (Api.type e) "element description drifts"]
      else []
  end.

Definition is_high (w : Api.warning) : bool := String.eqb (Api.severity w) "high".

(** Modelled from the spec: the remediation hint generated alongside a
    warning by the backend, which is not among the sources. *)
Definition suggestion (w : Api.warning) : string :=
  "reintroduce element " +:+ Api.w_element w +:+ " with consistent description".

(** Modelled from the spec: the backend's Continuity Validator, which
    is not among the sources.  Every element of the previous scene is
    checked against the current scene, and the report is valid iff no
    HIGH warning exists. *)
Definition validate (previous current : list Api.element) : Api.validation :=
  let warnings := flat_map (compare_element current) previous in
  {| Api.is_valid := negb (existsb is_high warnings);
     Api.warnings := warnings;
     Api.suggestions := map suggestion warnings |}.
End Comparison.

End ContinuityValidator.

(** ** Dashboard.jsx *)
Module Dashboard.

(** A project as [GET /api/projects] lists it. *)
Record project := {
  project_id : string;
  name : string;
  description : option string;
  status : string;
  duration_target : Q;
  scenes : option (list TemplateEditor.Scene.t);
  created_at : string;
  final_video : option string
}.

(** The buttons of a project card. *)
Inductive action :=
| StartProduction
| Download
| View
| Delete.

(** The [project-actions] block of the card. *)
Definition project_actions (p : project) : list action :=
  (if String.eqb (status p) "draft" then [StartProduction] else [])
  ++ (if String.eqb (status p) "completed" && bool_decide (is_Some (final_video p))
      then [Download] else [])
  ++ [View; Delete].

Inductive effect :=
| PostProductionStart (project_id : string) (auto_mode : bool)
| Alert (message : string)
| Navigate (path : string).

(** What awaiting [startProduction] gives. *)
Inductive outcome :=
| Started
| Failed (message : string).

(** [handleStartProduction] *)
Definition handleStartProduction (o : outcome) (projectId : string) : list effect :=
  PostProductionStart projectId true ::
  match o with
  | Started =>
      [Alert "Production started! Check the monitor for progress.";
       Navigate ("/monitor/" +:+ projectId)]
  | Failed message => [Alert ("Error starting production: " +:+ message)]
  end.

End Dashboard.

(** ** The production entry point behind [POST /api/production/start] *)
Module Orchestrator.

Inductive error :=
| InvalidProjectState.

Definition set_status (s : string) (p : Dashboard.project) : Dashboard.project :=
  {| Dashboard.project_id := Dashboard.project_id p;
     Dashboard.name := Dashboard.name p;
     Dashboard.description := Dashboard.description p;
     Dashboard.status := s;
     Dashboard.duration_target := Dashboard.duration_target p;
     Dashboard.scenes := Dashboard.scenes p;
     Dashboard.created_at := Dashboard.created_at p;
     Dashboard.final_video := Dashboard.final_video p |}.

(** Modelled from the spec: the entry of [produce] (section 4.2),
    which runs in the backend; its code is not part of the client
    sources.  The project must be a draft with at least one scene,
    otherwise the call fails with [InvalidProjectState]; a project
    that passes is marked in progress before any generation call.
    Statuses are spelled as the client reads them. *)
Definition produce_entry (p : Dashboard.project) : error + Dashboard.project :=
  if String.eqb (Dashboard.status p) "draft"
     && (1 <=? length (default [] (Dashboard.scenes p)))%nat
  then inr (set_status "in_progress" p)
  else inl InvalidProjectState.

End Orchestrator.

(** ** Editing sessions: sequences of scene additions and removals *)
Module Session.
Import TemplateEditor.

Inductive operation :=
| AddScene
| RemoveScene (index : nat).

Definition perform (t : Template.t) (op : operation) : Template.t :=
  match op with
  | AddScene => addScene t
  | RemoveScene index => removeScene index t
  end.

Definition run (ops : list operation) (t : Template.t) : Template.t :=
  foldl perform t ops.

(** The [scene_id]s of a template, in list order. *)
Definition ordinals (t : Template.t) : list nat :=
  Scene.scene_id <$> Template.scenes t.

(** Every scene carries its own position. *)
Definition numbered (t : Template.t) : Prop :=
  ordinals t = seq 0 (length (Template.scenes t)).

End Session.

(** ** Sample data, after the perfume commercial of the usage guide *)
Module Examples.
Import TemplateEditor.

Definition bottle : Api.element :=
  Api.Element "bottle" "black perfume bottle in hand".

(** The analysis of a product image, as the first card receives it. *)
Definition product_image : Api.FrameAnalysis :=
  {| Api.subject_position := Some "Mujer sentada, 4 perfumes frente a ella";
     Api.camera_angle := Some "medium shot";
     Api.lighting := Some "Suave, de estudio";
     Api.mood := Some "Elegante, sofisticado";
     Api.colors := Some ["negro"; "dorado"; "morado"; "blanco"];
     Api.tracked_elements := Some [bottle];
     Api.video_prompt := Some "Elegant woman seated at glossy table";
     Api.next_scene_suggestion := None |}.

(** The analysis of the last frame of the first clip. *)
Definition last_frame : Api.FrameAnalysis :=
  {| Api.subject_position := Some "center";
     Api.camera_angle := Some "close-up";
     Api.lighting := Some "soft studio";
     Api.mood := Some "elegant";
     Api.colors := Some ["purple"; "red"];
     Api.tracked_elements := Some [bottle];
     Api.video_prompt := None;
     Api.next_scene_suggestion :=
       Some "close-up bottle in hand, elegant lighting" |}.

(** Two scenes added through the editor, with their prompts typed in. *)
Definition perfume_template : Template.t :=
  let t := Session.run [Session.AddScene; Session.AddScene] initial_template in
  let t := default t (updateScene 0 (Scene.Prompt "La mujer muestra el perfume negro") t) in
  let t := default t (updateScene 1 (Scene.Prompt "La mujer rocia el perfume") t) in
  {| Template.name := "Perfume";
     Template.description := Template.description t;
     Template.duration_target := Template.duration_target t;
     Template.subject := Template.subject t;
     Template.product := Template.product t;
     Template.brand_guidelines := Template.brand_guidelines t;
     Template.scenes := Template.scenes t |}.

Definition perfume : editor := setTemplate perfume_template initial.

(** The prompt of the scene at [index], when the state and the scene exist. *)
Definition prompt_at (index : nat) (st : option editor) : option string :=
  st ← st;
  scene ← Template.scenes (template st) !! index;
  Some (Scene.prompt scene).

(** An optimizer reply that carries a dialogue but neither an action
    nor an emotion. *)
Definition dialogue_only : Api.optimized :=
  {| Api.action := None; Api.optimized_action := Some "";
     Api.emotion := Some ""; Api.optimized_emotion := None;
     Api.dialogue := Some "Este es el aroma de la elegancia, che";
     Api.keywords := [] |}.

Definition full_optimization : Api.optimized :=
  {| Api.action := Some "Woman gracefully sprays the perfume, slow dolly in";
     Api.optimized_action := None;
     Api.emotion := Some "luxury"; Api.optimized_emotion := None;
     Api.dialogue := Some "Este es el aroma de la elegancia, che";
     Api.keywords := ["dolly in"] |}.

Definition no_issues : optimizer_validation :=
  {| confidence_score := Some (9 # 10); notes := None; issues := [] |}.

(** The editor with a preview waiting on the second card. *)
Definition previewing (data : Api.optimized) : editor :=
  setOptimizationPreview
    (Some {| sceneIndex := 1;
             original_action := "La mujer rocia el perfume";
             original_emotion := "neutral";
             optimized := data; validation := no_issues;
             optimizedData := data |})
    perfume.

(** The editor after both cards have had a frame analysed. *)
Definition analysed : editor :=
  setImageAnalysis (<[1%nat := last_frame]> (<[0%nat := product_image]> ∅)) perfume.

(** An uploader that shows the analysis of an earlier image. *)
Definition analysed_uploader : FrameUploader.uploader :=
  {| FrameUploader.isDragging := false; FrameUploader.isAnalyzing := false;
     FrameUploader.preview := Some "data:image/png;base64,BBBB";
     FrameUploader.analysis := Some product_image;
     FrameUploader.error := None |}.

(** A template as a JSON file may bring it: one scene, numbered 5. *)
Definition loaded_template : Template.t :=
  Template.with_scenes
    [{| Scene.scene_id := 5; Scene.name := "Scene 1"; Scene.duration := 15 # 2;
        Scene.prompt := ""; Scene.emotion := "neutral";
        Scene.camera_movement := "static"; Scene.lighting := "natural";
        Scene.reference_images := []; Scene.dialogue := None;
        Scene.voice_gender := None |}]
    initial_template.

(** Two replies the validation service may give. *)
Definition report_ok : Api.validation := Api.Validation true [] [].

Definition report_missing_bottle : Api.validation :=
  Api.Validation false
    [Api.Warning "high" "bottle" "element absent in current scene"]
    ["reintroduce element bottle with consistent description"].

(** A similarity test: descriptions drift when they differ. *)
Definition differs (a b : string) : bool := negb (String.eqb a b).

Definition draft_project : Dashboard.project :=
  {| Dashboard.project_id := "p1"; Dashboard.name := "Perfume";
     Dashboard.description := None; Dashboard.status := "draft";
     Dashboard.duration_target := 30 # 1;
     Dashboard.scenes := Some (Template.scenes perfume_template);
     Dashboard.created_at := "2025-01-01T00:00:00";
     Dashboard.final_video := None |}.

End Examples.

(** ** FrameUploader.jsx: the drop zone *)
Module DropZone.
Import FrameUploader.

(** A dropped or selected file: its [type] and the data URL the
    [FileReader] reads it as. *)
Record file := {
  type : string;
  dataUrl : string
}.

Definition setIsDragging (b : bool) (u : uploader) : uploader :=
  {| isDragging := b; isAnalyzing := isAnalyzing u; preview := preview u;
     analysis := analysis u; error := error u |}.

(** [handleDragOver] *)
Definition handleDragOver (u : uploader) : uploader := setIsDragging true u.

(** [handleDragLeave] *)
Definition handleDragLeave (u : uploader) : uploader := setIsDragging false u.

(** [handleDrop]; [f] is [e.dataTransfer.files[0]].  The result holds
    the next state, the body of the request when one is sent, and the
    argument of the [onAnalysisComplete] call when it is made. *)
Definition handleDrop (isFirstScene : bool) (f : option file) (o : outcome)
    (u : uploader) : uploader * option request * option Api.FrameAnalysis :=
  let u := setIsDragging false u in
  match f with
  | Some f =>
      if String.prefix "image/" (type f) then
        let '(u, body, called) := processImage isFirstScene (type f) (dataUrl f) o u in
        (u, Some body, called)
      else (u, None, None)
  | None => (u, None, None)
  end.

(** [handleFileSelect]; [f] is [e.target.files[0]]. *)
Definition handleFileSelect (isFirstScene : bool) (f : option file) (o : outcome)
    (u : uploader) : uploader * option request * option Api.FrameAnalysis :=
  match f with
  | Some f =>
      let '(u, body, called) := processImage isFirstScene (type f) (dataUrl f) o u in
      (u, Some body, called)
  | None => (u, None, None)
  end.

(** [clearImage] *)
Definition clearImage (u : uploader) : uploader :=
  setError None (setAnalysis None (setPreview None u)).

End DropZone.

(** ** TemplateEditor.jsx: the events of the editor *)
Module Editing.
Import TemplateEditor.

(** [{ ...template, name: value }] *)
Definition with_name (value : string) (template : Template.t) : Template.t :=
  {| Template.name := value;
     Template.description := Template.description template;
     Template.duration_target := Template.duration_target template;
     Template.subject := Template.subject template;
     Template.product := Template.product template;
     Template.brand_guidelines := Template.brand_guidelines template;
     Template.scenes := Template.scenes template |}.

(** What the user and the awaited replies can make the editor do: the
    name input, the add button, and per scene card the trash button,
    the form controls, the optimize button with the reply it awaits,
    the two buttons of the preview and an analysis handed over by the
    uploader. *)
Inductive event :=
| Rename (value : string)
| AddScene
| RemoveScene (index : nat)
| UpdateScene (index : nat) (fv : Scene.field_value)
| Optimize (sceneIndex : nat) (o : optimize_outcome)
| Accept
| Reject
| AnalysisComplete (index : nat) (analysis : Api.FrameAnalysis).

(** The handler behind an event, run on the current render; [None]
    when the card the event belongs to is not rendered. *)
Definition step (st : editor) (ev : event) : option editor :=
  match ev with
  | Rename value => Some (setTemplate (with_name value (template st)) st)
  | AddScene => Some (setTemplate (addScene (template st)) st)
  | RemoveScene index =>
      _ ← Template.scenes (template st) !! index;
      Some (setTemplate (removeScene index (template st)) st)
  | UpdateScene index fv =>
      t ← updateScene index fv (template st);
      Some (setTemplate t st)
  | Optimize sceneIndex o => fst <$> handleOptimize sceneIndex o st
  | Accept => applyOptimization st
  | Reject => Some (rejectOptimization st)
  | AnalysisComplete index analysis => analysisComplete index analysis st
  end.

Fixpoint run (events : list event) (st : editor) : option editor :=
  match events with
  | [] => Some st
  | ev :: events => st ← step st ev; run events st
  end.

(** The preview shown inside the card at [index]:
    [optimizationPreview && optimizationPreview.sceneIndex === index]. *)
Definition cardPreview (index : nat) (st : editor) : option preview :=
  p ← optimizationPreview st;
  if (sceneIndex p =? index)%nat then Some p else None.

End Editing.

(** ** PromptPreview.jsx *)
Module PromptPreview.

Record comparison := {
  original : string;
  optimized : string
}.

(** [actionComparison]: the editor's preview object has no
    [comparison] key, so the fallback object is taken. *)
Definition actionComparison (preview : TemplateEditor.preview) : comparison :=
  {| original := Js.str_or (TemplateEditor.original_action preview) "N/A";
     optimized := Js.opt_or (Api.action (TemplateEditor.optimized preview)) "N/A" |}.

(** [emotionComparison] *)
Definition emotionComparison (preview : TemplateEditor.preview) : comparison :=
  {| original := Js.str_or (TemplateEditor.original_emotion preview) "N/A";
     optimized := Js.opt_or (Api.emotion (TemplateEditor.optimized preview)) "N/A" |}.

(** The dialogue section, when it is rendered; the preview's
    [original] object has no [dialogue] key. *)
Definition dialogueSection (preview : TemplateEditor.preview) : option comparison :=
  if Js.truthy (Api.dialogue (TemplateEditor.optimized preview))
     && negb (String.eqb (Js.opt_or (Api.dialogue (TemplateEditor.optimized preview)) "")
                         "N/A")
  then Some {| original := "N/A";
               optimized := Js.opt_or (Api.dialogue (TemplateEditor.optimized preview)) "" |}
  else None.

(** [keywords_added], [validation_notes] and [issues] *)
Definition keywords_added (preview : TemplateEditor.preview) : list string :=
  Api.keywords (TemplateEditor.optimized preview).

Definition validation_notes (preview : TemplateEditor.preview) : string :=
  Js.opt_or (TemplateEditor.notes (TemplateEditor.validation preview)) "".

Definition issues (preview : TemplateEditor.preview) : list string :=
  TemplateEditor.issues (TemplateEditor.validation preview).

(** What the component returns. *)
Inductive rendered :=
| Spinner
| Nothing
| Panel (preview : TemplateEditor.preview).

Definition render (loading : bool) (preview : option TemplateEditor.preview) : rendered :=
  if loading then Spinner
  else match preview with
       | None => Nothing
       | Some preview => Panel preview
       end.

End PromptPreview.

(** ** ProductionMonitor.jsx *)
Module ProductionMonitor.

(** A scene of the project as the monitor reads it. *)
Module Scene.
Record t := {
  scene_id : nat;
  name : string;
  duration : Q;
  emotion : string;
  status : option string
}.
End Scene.

(** [data.project] of [GET /api/projects/:id]. *)
Module Project.
Record t := {
  name : option string;
  scenes : option (list Scene.t)
}.
End Project.

(** The reply of [GET /api/production/status/:id]. *)
Module Production.
Record t := {
  status : option string;
  started_at : option string;
  current_scene : option nat;
  total_scenes : option nat;
  error : option string
}.
End Production.

Record monitor := {
  project : option Project.t;
  status : option Production.t;
  loading : bool
}.

Definition initial : monitor :=
  {| project := None; status := None; loading := true |}.

Definition setProject (p : option Project.t) (m : monitor) : monitor :=
  {| project := p; status := status m; loading := loading m |}.

Definition setStatus (s : option Production.t) (m : monitor) : monitor :=
  {| project := project m; status := s; loading := loading m |}.

Definition setLoading (b : bool) (m : monitor) : monitor :=
  {| project := project m; status := status m; loading := b |}.

Inductive effect :=
| GetProject
| GetProductionStatus
| ConsoleError (label : string) (error : string).

(** What awaiting [getProject] gives: the body with its [project]
    key, or an exception. *)
Inductive load_outcome :=
| ProjectLoaded (project : option Project.t)
| ProjectFailed (error : string).

(** What awaiting [getProductionStatus] gives. *)
Inductive poll_outcome :=
| Polled (data : Production.t)
| PollFailed (error : string).

(** [loadProject] *)
Definition loadProject (o : load_outcome) (m : monitor) : monitor * list effect :=
  match o with
  | ProjectLoaded p => (setProject p m, [GetProject])
  | ProjectFailed error => (m, [GetProject; ConsoleError "Error loading project:" error])
  end.

(** [checkStatus]; [reload] is what the [loadProject] it starts on a
    completed production is answered with. *)
Definition checkStatus (o : poll_outcome) (reload : load_outcome) (m : monitor)
  : monitor * list effect :=
  match o with
  | Polled data =>
      let m := setLoading false (setStatus (Some data) m) in
      if match Production.status data with
         | Some s => String.eqb s "completed"
         | None => false
         end
      then
        let '(m, effects) := loadProject reload m in
        (m, GetProductionStatus :: effects)
      else (m, [GetProductionStatus])
  | PollFailed error =>
      (setLoading false m,
       [GetProductionStatus; ConsoleError "Error checking status:" error])
  end.

(** [getSceneStatus] *)
Definition getSceneStatus (project : option Project.t) (sceneId : nat) : string :=
  match project with
  | None => "pending"
  | Some project =>
      match Project.scenes project with
      | None => "pending"
      | Some scenes =>
          match List.find (fun s => (Scene.scene_id s =? sceneId)%nat) scenes with
          | Some scene => Js.opt_or (Scene.status scene) "pending"
          | None => "pending"
          end
      end
  end.

Inductive icon :=
| CheckCircle
| Loader
| XCircle
| Clock.

(** [getStatusIcon] *)
Definition getStatusIcon (sceneStatus : string) : icon :=
  if String.eqb sceneStatus "completed" then CheckCircle
  else if String.eqb sceneStatus "generating" then Loader
  else if String.eqb sceneStatus "failed" then XCircle
  else Clock.

(** One item of the scenes list. *)
Record row := {
  number : nat;
  title : string;
  sceneStatus : string;
  statusIcon : icon
}.

(** The items of the scenes list:
    [project.scenes.map((scene, idx) => ...)]. *)
Definition rows (m : monitor) : list row :=
  match project m with
  | Some p =>
      imap (fun idx scene =>
              let sceneStatus := getSceneStatus (project m) (Scene.scene_id scene) in
              {| number := idx + 1; title := Scene.name scene;
                 sceneStatus := sceneStatus;
                 statusIcon := getStatusIcon sceneStatus |})
           (default [] (Project.scenes p))
  | None => []
  end.

End ProductionMonitor.

(** ** api/client.js *)
Module Client.

(** The query of [GET /api/projects]. *)
Record params := {
  status : option string;
  limit : option nat
}.

(** The [params] object [getProjects] builds. *)
Definition getProjects (status : option string) (limit : nat) : params :=
  {| status := if Js.truthy status then status else None;
     limit := if (limit =? 0)%nat then None else Some limit |}.

(** The default of its [limit] argument. *)
Definition default_limit : nat := 50.

End Client.

(** ** Dashboard.jsx: the project list *)
Module ProjectList.

Record dashboard := {
  projects : list Dashboard.project;
  loading : bool;
  filter : string
}.

Definition initial : dashboard :=
  {| projects := []; loading := true; filter := "all" |}.

Definition setProjects (l : list Dashboard.project) (d : dashboard) : dashboard :=
  {| projects := l; loading := loading d; filter := filter d |}.

Definition setLoading (b : bool) (d : dashboard) : dashboard :=
  {| projects := projects d; loading := b; filter := filter d |}.


Inductive effect :=
| GetProjects (query : Client.params)
| Confirm (question : string)
| DeleteProject (project_id : string)
| Alert (message : string)
| ConsoleError (label : string) (error : string).

(** What awaiting [getProjects] gives: the body with its [projects]
    key, or an exception. *)
Inductive load_outcome :=
| Loaded (projects : option (list Dashboard.project))
| LoadFailed (error : string).

(** What awaiting [deleteProject] gives. *)
Inductive delete_outcome :=
| Deleted
| DeleteFailed (message : string).

(** [loadProjects] *)
Definition loadProjects (o : load_outcome) (d : dashboard) : dashboard * list effect :=
  let d := setLoading true d in
  let status := if String.eqb (filter d) "all" then None else Some (filter d) in
  let call := GetProjects (Client.getProjects status Client.default_limit) in
  let '(d, logged) :=
    match o with
    | Loaded projects => (setProjects (default [] projects) d, [])
    | LoadFailed error => (d, [ConsoleError "Error loading projects:" error])
    end in
  (setLoading false d, call :: logged).


(** [handleDelete]; [confirmed] is the answer to the [confirm] dialog
    and [reload] what the [loadProjects] it starts is answered with. *)
Definition handleDelete (confirmed : bool) (o : delete_outcome) (reload : load_outcome)
    (projectId : string) (d : dashboard) : dashboard * list effect :=
  let asked := Confirm "Are you sure you want to delete this project?" in
  if confirmed then
    match o with
    | Deleted =>
        let '(d, effects) := loadProjects reload d in
        (d, asked :: DeleteProject projectId :: effects)
    | DeleteFailed message =>
        (d, [asked; DeleteProject projectId;
             Alert ("Error deleting project: " +:+ message)])
    end
  else (d, [asked]).

End ProjectList.

(** * Properties *)

Import TemplateEditor.

(** ** Scene numbering *)
Section Numbering.
Import Session.

Lemma renumbered_ordinals (l : list Scene.t) :
  Scene.scene_id <$> imap renumber l = seq 0 (length l).
Proof.
  apply list_eq; intros i.
  rewrite list_lookup_fmap, list_lookup_imap.
  destruct (l !! i) as [s|] eqn:Hi; simpl.
  - apply lookup_lt_Some in Hi. by rewrite lookup_seq_lt.
  - apply lookup_ge_None in Hi. by rewrite lookup_seq_ge.
Qed.

Lemma numbered_initial : numbered initial_template.
Proof. reflexivity. Qed.

Lemma numbered_addScene t : numbered t -> numbered (addScene t).
Proof.
  unfold numbered, ordinals, addScene; simpl; intros H.
  rewrite fmap_app, length_app, H; simpl.
  by rewrite Nat.add_1_r, seq_S.
Qed.

Lemma numbered_removeScene index t : numbered (removeScene index t).
Proof.
  unfold numbered, ordinals, removeScene; simpl.
  by rewrite renumbered_ordinals, length_imap.
Qed.

Lemma numbered_perform t op : numbered t -> numbered (perform t op).
Proof.
  destruct op; simpl; [apply numbered_addScene | intros _; apply numbered_removeScene].
Qed.

Lemma numbered_run ops : forall t, numbered t -> numbered (run ops t).
Proof.
  unfold run. induction ops as [|op ops IH]; intros t H; simpl; [done|].
  apply IH, numbered_perform, H.
Qed.

Lemma numbered_lookup t i s :
  numbered t -> Template.scenes t !! i = Some s -> Scene.scene_id s = i.
Proof.
  unfold numbered, ordinals; intros H Hi.
  assert (Hs : (Scene.scene_id <$> Template.scenes t) !! i = Some (Scene.scene_id s))
    by (by rewrite list_lookup_fmap, Hi).
  rewrite H in Hs. apply lookup_seq in Hs as [-> _]. done.
Qed.

Lemma numbered_NoDup t : numbered t -> NoDup (ordinals t).
Proof. intros ->. apply NoDup_seq. Qed.

(** Adding does not repair a numbering that was off to begin with;
    the first removal does. *)
Lemma foreign_ordinals_kept :
  ordinals (addScene Examples.loaded_template) = [5; 1]%nat
  /\ ordinals (removeScene 0 (addScene Examples.loaded_template)) = [0]%nat.
Proof. by split. Qed.

(** C6. After any sequence of add-scene and remove-scene operations,
    started from the editor's empty template or from any template
    whose scenes are numbered by position, the ordinals of the scenes
    are exactly [0 .. n-1] in list order: every scene's [scene_id] is
    its index, and no ordinal occurs twice. *)
Theorem scene_ordinals_contiguous (ops : list operation) :
  forall t, t = initial_template \/ numbered t ->
    ordinals (run ops t) = seq 0 (length (Template.scenes (run ops t)))
    /\ (forall i s, Template.scenes (run ops t) !! i = Some s -> Scene.scene_id s = i)
    /\ NoDup (ordinals (run ops t)).
Proof.
  intros t Ht.
  assert (H : numbered (run ops t)).
  { apply numbered_run. destruct Ht as [->|Ht]; [apply numbered_initial | done]. }
  split; [exact H|]. split.
  - intros i s. by apply numbered_lookup.
  - by apply numbered_NoDup.
Qed.

Lemma scene_ordinals_contiguous_witness :
  let ops := [AddScene; AddScene; AddScene; RemoveScene 1; AddScene; RemoveScene 0] in
  ordinals (run ops initial_template) = [0; 1]%nat
  /\ (Scene.name <$> Template.scenes (run ops initial_template)) = ["Scene 1"; "Scene 2"]
  /\ NoDup (ordinals (run ops initial_template)).
Proof.
  destruct (scene_ordinals_contiguous
              [AddScene; AddScene; AddScene; RemoveScene 1; AddScene; RemoveScene 0]
              initial_template (or_introl eq_refl)) as (H & _ & Hnd).
  split; [exact H|]. split; [reflexivity | exact Hnd].
Defined.

End Numbering.

(** ** Frame analysis arriving at a scene card *)
Section Routing.

Lemma append_cons x (a b : string) : String x a +:+ b = String x (a +:+ b).
Proof. reflexivity. Qed.

Lemma append_assoc (a b c : string) : (a +:+ b) +:+ c = a +:+ b +:+ c.
Proof. induction a as [|x a IH]; [done|]. by rewrite !append_cons, IH. Qed.

Lemma str_or_empty s : Js.str_or s "" = s.
Proof. unfold Js.str_or. destruct (String.eqb_spec s ""); congruence. Qed.

Lemma str_or_nonempty s d : d <> "" -> Js.str_or s d <> "".
Proof. unfold Js.str_or. destruct (String.eqb_spec s ""); congruence. Qed.

Lemma opt_or_nonempty o d : d <> "" -> Js.opt_or o d <> "".
Proof. destruct o; simpl; [apply str_or_nonempty | done]. Qed.

Lemma opt_or_falsy o d : Js.truthy o = false -> Js.opt_or o d = d.
Proof.
  destruct o as [s|]; simpl; [|done]. unfold Js.str_or.
  destruct (String.eqb s ""); [done | discriminate].
Qed.

Lemma opt_or_truthy o d : Js.truthy o = true -> o = Some (Js.opt_or o d).
Proof.
  destruct o as [s|]; simpl; [|discriminate]. unfold Js.str_or.
  destruct (String.eqb s ""); [discriminate | done].
Qed.

Lemma truthy_eqb o : negb (String.eqb (Js.opt_or o "") "") = Js.truthy o.
Proof.
  destruct o as [s|]; simpl; [|done]. by rewrite str_or_empty.
Qed.

(** A write through [updateScene] lands on the card it was made for
    and leaves the others alone. *)
Lemma updateScene_spec index fv t scene :
  Template.scenes t !! index = Some scene ->
  exists t',
    updateScene index fv t = Some t'
    /\ Template.scenes t' !! index = Some (Scene.with_field fv scene)
    /\ (forall j, j <> index -> Template.scenes t' !! j = Template.scenes t !! j)
    /\ length (Template.scenes t') = length (Template.scenes t).
Proof.
  intros H. unfold updateScene. rewrite H; simpl.
  eexists; split; [reflexivity|]. simpl. split; [|split].
  - apply list_lookup_insert_eq. by eapply lookup_lt_Some.
  - intros j Hj. by apply list_lookup_insert_ne.
  - apply length_insert.
Qed.

(** The prompt of a card after an analysis has arrived at it. *)
Lemma analysisComplete_prompt index scene analysis st :
  Template.scenes (template st) !! index = Some scene ->
  exists st' scene',
    analysisComplete index analysis st = Some st'
    /\ Template.scenes (template st') !! index = Some scene'
    /\ Scene.prompt scene' =
         if (index =? 0)%nat then
           if Js.truthy (Api.video_prompt analysis)
           then Js.opt_or (Api.video_prompt analysis) ""
           else Scene.prompt scene
         else
           if Js.truthy (Api.next_scene_suggestion analysis)
              && negb (Js.includes (Scene.prompt scene) "[CONTINUITY]")
           then "[CONTINUITY: " +:+ Js.opt_or (Api.next_scene_suggestion analysis) ""
                +:+ "] " +:+ Scene.prompt scene
           else Scene.prompt scene.
Proof.
  intros H. unfold analysisComplete, onAnalysisComplete. rewrite H; simpl.
  rewrite !truthy_eqb, str_or_empty.
  destruct (index =? 0)%nat.
  - destruct (Js.truthy (Api.video_prompt analysis)).
    + edestruct (updateScene_spec index) as (t' & -> & Ht' & _); [exact H|].
      simpl. by eexists _, _.
    + by eexists _, _.
  - destruct (Js.truthy (Api.next_scene_suggestion analysis)
              && negb (Js.includes (Scene.prompt scene) "[CONTINUITY]")).
    + edestruct (updateScene_spec index) as (t' & -> & Ht' & _); [exact H|].
      simpl. by eexists _, _.
    + by eexists _, _.
Qed.

(** C4. An analysis is routed by the position of the card that
    receives it.  On the first card the generated prompt
    ([video_prompt]), when there is one, replaces the scene's prompt
    whole, and the continuity suggestion plays no part.  On every
    later card the generated prompt plays no part: the continuity
    suggestion ([next_scene_suggestion]), when there is one and the
    prompt holds no [[CONTINUITY]] tag, is put in front of the prompt
    as a bracketed marker, and in every case the old prompt is still
    the tail of the new one.  The uploader displays the same field it
    routes. *)
Theorem analysis_routed_by_position index scene analysis st :
  Template.scenes (template st) !! index = Some scene ->
  exists st' scene',
    analysisComplete index analysis st = Some st'
    /\ Template.scenes (template st') !! index = Some scene'
    /\ (index = 0%nat ->
          Scene.prompt scene' =
            (if Js.truthy (Api.video_prompt analysis)
             then Js.opt_or (Api.video_prompt analysis) ""
             else Scene.prompt scene)
          /\ (Js.truthy (Api.video_prompt analysis) = true ->
              Some (Scene.prompt scene') = Api.video_prompt analysis
              /\ FrameUploader.suggestion_item (index =? 0)%nat analysis
                 = Some ("Prompt Generado", Scene.prompt scene')))
    /\ ((1 <= index)%nat ->
          Scene.prompt scene' =
            (if Js.truthy (Api.next_scene_suggestion analysis)
                && negb (Js.includes (Scene.prompt scene) "[CONTINUITY]")
             then "[CONTINUITY: " +:+ Js.opt_or (Api.next_scene_suggestion analysis) ""
                  +:+ "] " +:+ Scene.prompt scene
             else Scene.prompt scene)
          /\ (exists marker, Scene.prompt scene' = marker +:+ Scene.prompt scene)
          /\ (Js.truthy (Api.next_scene_suggestion analysis) = true ->
              FrameUploader.suggestion_item (index =? 0)%nat analysis
              = Some ("Sugerencia Siguiente Escena",
                      Js.opt_or (Api.next_scene_suggestion analysis) ""))).
Proof.
  intros H.
  destruct (analysisComplete_prompt index scene analysis st H)
    as (st' & scene' & Hrun & Hscene & Hprompt).
  exists st', scene'. split; [exact Hrun|]. split; [exact Hscene|].
  unfold FrameUploader.suggestion_item.
  destruct (Nat.eqb_spec index 0) as [->|Hne];
    [split; [intros _ | lia] | split; [lia | intros _]].
  - split; [exact Hprompt|]. intros Hv. rewrite Hv in Hprompt |- *.
    rewrite Hprompt. split; [|done]. symmetry. by apply opt_or_truthy.
  - split; [exact Hprompt|]. split.
    + rewrite Hprompt.
      destruct (Js.truthy (Api.next_scene_suggestion analysis)
                && negb (Js.includes (Scene.prompt scene) "[CONTINUITY]")).
      * exists ("[CONTINUITY: "
                +:+ Js.opt_or (Api.next_scene_suggestion analysis) "" +:+ "] ").
        by rewrite 2!append_assoc.
      * by exists "".
    + by intros ->.
Qed.

Lemma analysis_routed_by_position_witness :
  exists st' scene',
    analysisComplete 1 Examples.last_frame Examples.perfume = Some st'
    /\ Template.scenes (template st') !! 1%nat = Some scene'
    /\ Scene.prompt scene'
       = "[CONTINUITY: close-up bottle in hand, elegant lighting] La mujer rocia el perfume".
Proof.
  edestruct (analysis_routed_by_position 1 _ Examples.last_frame Examples.perfume eq_refl)
    as (st' & scene' & Hrun & Hscene & _ & Hlater).
  exists st', scene'. split; [exact Hrun|]. split; [exact Hscene|].
  destruct (Hlater (le_n 1)) as (Hprompt & _). exact Hprompt.
Defined.

(** The guard of the continuity step, as written: a prompt that holds
    the text [[CONTINUITY]] is left alone. *)
Lemma continuity_guard index scene analysis st :
  (1 <= index)%nat ->
  Template.scenes (template st) !! index = Some scene ->
  Js.includes (Scene.prompt scene) "[CONTINUITY]" = true ->
  Examples.prompt_at index (analysisComplete index analysis st)
  = Some (Scene.prompt scene).
Proof.
  intros Hi H Hinc.
  destruct (analysisComplete_prompt index scene analysis st H)
    as (st' & scene' & -> & Hscene & Hprompt).
  destruct (Nat.eqb_spec index 0) as [->|_]; [lia|].
  rewrite Hinc, andb_false_r in Hprompt.
  unfold Examples.prompt_at; simpl. rewrite Hscene; simpl. by rewrite Hprompt.
Qed.

Lemma includes_suffix (a b search : string) :
  Js.includes (a +:+ b) search = false -> Js.includes b search = false.
Proof.
  induction a as [|x a IH]; [done|]. rewrite append_cons. simpl.
  intros H. apply orb_false_elim in H as [_ H]. by apply IH.
Qed.

(** The marker does not set off the guard: whenever the marked prompt
    does not hold the text [[CONTINUITY]], the same analysis arriving a
    second time puts a second marker in front of the first. *)
Lemma continuity_marker_repeats index scene analysis st :
  (1 <= index)%nat ->
  Template.scenes (template st) !! index = Some scene ->
  Js.truthy (Api.next_scene_suggestion analysis) = true ->
  let marker := "[CONTINUITY: " +:+ Js.opt_or (Api.next_scene_suggestion analysis) "" +:+ "] " in
  Js.includes (marker +:+ Scene.prompt scene) "[CONTINUITY]" = false ->
  Examples.prompt_at index (analysisComplete index analysis st)
  = Some (marker +:+ Scene.prompt scene)
  /\ Examples.prompt_at index
       (analysisComplete index analysis st ≫= analysisComplete index analysis)
     = Some (marker +:+ marker +:+ Scene.prompt scene).
Proof.
  intros Hi H Hs marker Hinc.
  assert (Hindex : (index =? 0)%nat = false) by (apply Nat.eqb_neq; lia).
  destruct (analysisComplete_prompt index scene analysis st H)
    as (st1 & scene1 & Hrun1 & Hscene1 & Hprompt1).
  rewrite Hindex, Hs, (includes_suffix _ _ _ Hinc) in Hprompt1. simpl in Hprompt1.
  assert (Hmarked : Scene.prompt scene1 = marker +:+ Scene.prompt scene)
    by (by rewrite Hprompt1; unfold marker; rewrite 2!append_assoc).
  destruct (analysisComplete_prompt index scene1 analysis st1 Hscene1)
    as (st2 & scene2 & Hrun2 & Hscene2 & Hprompt2).
  rewrite Hindex, Hs, Hmarked, Hinc in Hprompt2. simpl in Hprompt2.
  rewrite Hrun1; simpl. rewrite Hrun2. unfold Examples.prompt_at; simpl.
  rewrite Hscene1, Hscene2; simpl. split; [by rewrite Hmarked|].
  rewrite Hprompt2. unfold marker. by rewrite !append_assoc.
Qed.

(** C1. The continuity step is meant to be idempotent, but the marker
    it writes, [[CONTINUITY: ...]], is not the text its guard looks
    for, [[CONTINUITY]].  On the second scene of the sample template
    the first analysis puts the marker in front of the prompt and the
    same analysis arriving again puts a second marker in front of the
    first: applying the step twice differs from applying it once. *)
Theorem continuity_marker_duplicated :
  let once := analysisComplete 1 Examples.last_frame Examples.perfume in
  let twice := once ≫= analysisComplete 1 Examples.last_frame in
  Examples.prompt_at 1 once
  = Some "[CONTINUITY: close-up bottle in hand, elegant lighting] La mujer rocia el perfume"
  /\ Examples.prompt_at 1 twice
     = Some "[CONTINUITY: close-up bottle in hand, elegant lighting] [CONTINUITY: close-up bottle in hand, elegant lighting] La mujer rocia el perfume"
  /\ Examples.prompt_at 1 twice <> Examples.prompt_at 1 once
  /\ Js.includes
       "[CONTINUITY: close-up bottle in hand, elegant lighting] La mujer rocia el perfume"
       "[CONTINUITY]" = false.
Proof. vm_compute. repeat split; discriminate. Qed.

End Routing.

(** ** A failed frame analysis *)
Section AnalysisFailure.
Import FrameUploader.

Lemma append_nonempty (a b : string) : a <> "" -> a +:+ b <> "".
Proof. destruct a; [done|]. by rewrite append_cons. Qed.

(** C8. When the analysis request answers with a falsy [ok] or
    throws, the uploader shows a non-empty error message, the
    [onAnalysisComplete] callback is not made, and [analyzeFrame]
    leaves the analysis held by the uploader as it was.  The editor
    (every scene prompt and the analyses stored per scene) is exactly
    as before the image was dropped. *)
Theorem analysis_failure_atomic index fileType base64Data o u st :
  failed o ->
  exists u' msg,
    (forall isFirstScene imageData,
       exists body,
         analyzeFrame isFirstScene imageData fileType o u = (u', body, None))
    /\ error u' = Some msg /\ msg <> ""
    /\ analysis u' = analysis u
    /\ isAnalyzing u' = false
    /\ exists u'',
         frameDropped index fileType base64Data o u st = Some (u'', st)
         /\ error u'' = Some msg.
Proof.
  intros Hf. unfold frameDropped, processImage.
  destruct o as [[a|e]|message]; [done| |]; simpl.
  - eexists _, _. split; [by eexists|]. simpl. split; [reflexivity|].
    split; [by apply opt_or_nonempty|]. repeat (split; [done|]). by eexists.
  - eexists _, _. split; [by eexists|]. simpl. split; [reflexivity|].
    split; [by apply append_nonempty|]. repeat (split; [done|]). by eexists.
Qed.

Lemma analysis_failure_atomic_witness :
  exists u' msg,
    (exists body,
       analyzeFrame false (Some "AAAA") "image/png" (Resolved (NotOk None))
         Examples.analysed_uploader
       = (u', body, None))
    /\ error u' = Some msg /\ msg = "Analysis failed"
    /\ analysis u' = Some Examples.product_image
    /\ exists u'',
         frameDropped 1 "image/png" "data:image/png;base64,AAAA" (Resolved (NotOk None))
           Examples.analysed_uploader Examples.analysed
         = Some (u'', Examples.analysed).
Proof.
  destruct (analysis_failure_atomic 1 "image/png" "data:image/png;base64,AAAA"
              (Resolved (NotOk None)) Examples.analysed_uploader Examples.analysed I)
    as (u' & msg & Hrun & Herr & _ & Hkeep & _ & u'' & Hdrop & _).
  exists u', msg. split; [exact (Hrun false (Some "AAAA"))|].
  destruct (Hrun false (Some "AAAA")) as (body & Hbody).
  injection Hbody as <- _. simpl in Herr. injection Herr as <-.
  split; [reflexivity|]. split; [reflexivity|]. split; [exact Hkeep | by exists u''].
Defined.

End AnalysisFailure.

(** ** Prompt optimization *)
Section Optimization.

(** C5. The request [handleOptimize] sends carries the scene's raw
    prompt, emotion and dialogue, and the image analysis is attached
    only on the first scene, where it is the analysis stored for
    position 0 if there is one.  On every later scene the request has
    no image context, whatever analyses are stored. *)
Theorem image_context_first_scene_only sceneIndex scene o st :
  Template.scenes (template st) !! sceneIndex = Some scene ->
  exists st' request alerts,
    handleOptimize sceneIndex o st = Some (st', OptimizePrompt request :: alerts)
    /\ (forall e, e ∈ alerts -> exists message, e = Alert message)
    /\ action request = Scene.prompt scene
    /\ emotion request = Js.str_or (Scene.emotion scene) "neutral"
    /\ dialogue request = Js.opt_or (Scene.dialogue scene) ""
    /\ (sceneIndex = 0%nat -> image_context request = imageAnalysis st !! 0%nat)
    /\ ((1 <= sceneIndex)%nat -> image_context request = None).
Proof.
  intros H. unfold handleOptimize. rewrite H; simpl.
  assert (Hrequest :
    forall request,
      request = buildOptimizationRequest (template st) (imageAnalysis st) sceneIndex scene ->
      action request = Scene.prompt scene
      /\ emotion request = Js.str_or (Scene.emotion scene) "neutral"
      /\ dialogue request = Js.opt_or (Scene.dialogue scene) ""
      /\ (sceneIndex = 0%nat -> image_context request = imageAnalysis st !! 0%nat)
      /\ ((1 <= sceneIndex)%nat -> image_context request = None)).
  { intros request ->; simpl. split; [apply str_or_empty|]. split; [done|].
    split; [done|]. split; [by intros -> | intros Hi].
    destruct (Nat.eqb_spec sceneIndex 0); [lia | done]. }
  destruct o as [[optimized validation|error]|message]; simpl;
    eexists _, _, _; (split; [reflexivity|]);
    (split; [intros e He | by apply Hrequest]).
  - by apply elem_of_nil in He.
  - apply list_elem_of_singleton in He. by eexists.
  - apply list_elem_of_singleton in He. by eexists.
Qed.

Lemma image_context_first_scene_only_witness :
  exists st' request alerts,
    handleOptimize 1 (OptResolved (OptOk Examples.full_optimization Examples.no_issues))
      Examples.analysed
    = Some (st', OptimizePrompt request :: alerts)
    /\ Examples.analysed.(imageAnalysis) !! 1%nat = Some Examples.last_frame
    /\ action request = "La mujer rocia el perfume"
    /\ image_context request = None.
Proof.
  edestruct (image_context_first_scene_only 1 _
               (OptResolved (OptOk Examples.full_optimization Examples.no_issues))
               Examples.analysed eq_refl)
    as (st' & request & alerts & Hrun & _ & Haction & _ & _ & _ & Hlater).
  exists st', request, alerts. split; [exact Hrun|]. split; [reflexivity|].
  split; [exact Haction | exact (Hlater (le_n 1))].
Defined.

(** Accepting a preview rewrites the [prompt] and [emotion] of the
    scene at the preview's index, each falling back from [action] to
    [optimized_action] to the value the scene has (likewise for the
    emotion), and writes nothing else. *)
Lemma applyOptimization_spec st p scene :
  optimizationPreview st = Some p ->
  Template.scenes (template st) !! sceneIndex p = Some scene ->
  exists st',
    applyOptimization st = Some st'
    /\ Template.scenes (template st') !! sceneIndex p
       = Some (Scene.with_field
                 (Scene.Emotion
                    (Js.opt_or (Api.emotion (optimizedData p))
                       (Js.opt_or (Api.optimized_emotion (optimizedData p))
                          (Scene.emotion scene))))
                 (Scene.with_field
                    (Scene.Prompt
                       (Js.opt_or (Api.action (optimizedData p))
                          (Js.opt_or (Api.optimized_action (optimizedData p))
                             (Scene.prompt scene))))
                    scene))
    /\ (forall j, j <> sceneIndex p ->
          Template.scenes (template st') !! j = Template.scenes (template st) !! j)
    /\ length (Template.scenes (template st')) = length (Template.scenes (template st))
    /\ Template.with_scenes (Template.scenes (template st)) (template st')
       = Template.with_scenes (Template.scenes (template st)) (template st)
    /\ imageAnalysis st' = imageAnalysis st.
Proof.
  intros Hp H. unfold applyOptimization. rewrite Hp, H; simpl.
  eexists; split; [reflexivity|]. simpl. split; [|split; [|split]].
  - apply list_lookup_insert_eq. by eapply lookup_lt_Some.
  - intros j Hj. by apply list_lookup_insert_ne.
  - apply length_insert.
  - done.
Qed.

(** C9. Accepting an optimization preview changes at most the
    [prompt] and the [emotion] of the scene the preview belongs to.
    That scene keeps its dialogue (whatever dialogue the optimizer
    proposed), name, duration, camera movement, lighting, ordinal,
    voice and reference images; every other scene, the number of
    scenes, the rest of the template and the stored analyses are
    unchanged. *)
Theorem optimization_frame st p scene :
  optimizationPreview st = Some p ->
  Template.scenes (template st) !! sceneIndex p = Some scene ->
  exists st' scene',
    applyOptimization st = Some st'
    /\ Template.scenes (template st') !! sceneIndex p = Some scene'
    /\ Scene.dialogue scene' = Scene.dialogue scene
    /\ Scene.name scene' = Scene.name scene
    /\ Scene.duration scene' = Scene.duration scene
    /\ Scene.camera_movement scene' = Scene.camera_movement scene
    /\ Scene.lighting scene' = Scene.lighting scene
    /\ Scene.scene_id scene' = Scene.scene_id scene
    /\ Scene.voice_gender scene' = Scene.voice_gender scene
    /\ Scene.reference_images scene' = Scene.reference_images scene
    /\ (forall j, j <> sceneIndex p ->
          Template.scenes (template st') !! j = Template.scenes (template st) !! j)
    /\ length (Template.scenes (template st')) = length (Template.scenes (template st))
    /\ Template.name (template st') = Template.name (template st)
    /\ Template.brand_guidelines (template st') = Template.brand_guidelines (template st)
    /\ imageAnalysis st' = imageAnalysis st.
Proof.
  intros Hp H.
  destruct (applyOptimization_spec st p scene Hp H)
    as (st' & Hrun & Hscene & Hothers & Hlen & Htemplate & Himages).
  exists st'; eexists. split; [exact Hrun|]. split; [exact Hscene|]. simpl.
  do 8 (split; [reflexivity|]). split; [exact Hothers|]. split; [exact Hlen|].
  split; [|split; [|exact Himages]].
  - by apply (f_equal Template.name) in Htemplate.
  - by apply (f_equal Template.brand_guidelines) in Htemplate.
Qed.

Lemma optimization_frame_witness :
  exists st' scene',
    applyOptimization (Examples.previewing Examples.full_optimization) = Some st'
    /\ Template.scenes (template st') !! 1%nat = Some scene'
    /\ Api.dialogue Examples.full_optimization
       = Some "Este es el aroma de la elegancia, che"
    /\ Scene.dialogue scene' = None
    /\ Scene.name scene' = "Scene 2"
    /\ Template.scenes (template st') !! 0%nat
       = Template.scenes Examples.perfume_template !! 0%nat.
Proof.
  edestruct (optimization_frame (Examples.previewing Examples.full_optimization) _ _
               eq_refl eq_refl)
    as (st' & scene' & Hrun & Hscene & Hdialogue & Hname & _ & _ & _ & _ & _ & _
        & Hothers & _).
  exists st', scene'. split; [exact Hrun|]. split; [exact Hscene|].
  split; [reflexivity|]. split; [exact Hdialogue|]. split; [exact Hname|].
  apply (Hothers 0%nat). discriminate.
Defined.

(** C10. Accepting an optimization never erases the text of the
    scene.  When the optimizer's result has no action under [action]
    and none under [optimized_action], the prompt stays as it was, and
    likewise the emotion under [emotion] and [optimized_emotion]; so a
    prompt (an emotion) that was not empty is not empty afterwards. *)
Theorem optimization_keeps_text st p scene :
  optimizationPreview st = Some p ->
  Template.scenes (template st) !! sceneIndex p = Some scene ->
  exists st' scene',
    applyOptimization st = Some st'
    /\ Template.scenes (template st') !! sceneIndex p = Some scene'
    /\ (Js.truthy (Api.action (optimizedData p)) = false ->
        Js.truthy (Api.optimized_action (optimizedData p)) = false ->
        Scene.prompt scene' = Scene.prompt scene)
    /\ (Js.truthy (Api.emotion (optimizedData p)) = false ->
        Js.truthy (Api.optimized_emotion (optimizedData p)) = false ->
        Scene.emotion scene' = Scene.emotion scene)
    /\ (Scene.prompt scene <> "" -> Scene.prompt scene' <> "")
    /\ (Scene.emotion scene <> "" -> Scene.emotion scene' <> "").
Proof.
  intros Hp H.
  destruct (applyOptimization_spec st p scene Hp H) as (st' & Hrun & Hscene & _).
  exists st'; eexists. split; [exact Hrun|]. split; [exact Hscene|]. simpl.
  split; [|split; [|split]].
  - intros Ha Hb. by rewrite !opt_or_falsy.
  - intros Ha Hb. by rewrite !opt_or_falsy.
  - intros Hne. by do 2 apply opt_or_nonempty.
  - intros Hne. by do 2 apply opt_or_nonempty.
Qed.

Lemma optimization_keeps_text_witness :
  exists st' scene',
    applyOptimization (Examples.previewing Examples.dialogue_only) = Some st'
    /\ Template.scenes (template st') !! 1%nat = Some scene'
    /\ Scene.prompt scene' = "La mujer rocia el perfume"
    /\ Scene.emotion scene' = "neutral".
Proof.
  edestruct (optimization_keeps_text (Examples.previewing Examples.dialogue_only) _ _
               eq_refl eq_refl)
    as (st' & scene' & Hrun & Hscene & Hprompt & Hemotion & _).
  exists st', scene'. split; [exact Hrun|]. split; [exact Hscene|].
  split; [exact (Hprompt eq_refl eq_refl) | exact (Hemotion eq_refl eq_refl)].
Defined.

End Optimization.

(** ** Starting a production *)
Section Production.

Lemma eqb_empty s : String.eqb s "" = true <-> s = "".
Proof. apply String.eqb_eq. Qed.

Lemma submit_guard (t : Template.t) :
  String.eqb (Template.name t) "" || (length (Template.scenes t) =? 0)%nat = true
  <-> Template.name t = "" \/ Template.scenes t = [].
Proof.
  rewrite orb_true_iff, eqb_empty, Nat.eqb_eq. split; (intros [H|H]; [by left | right]).
  - by destruct (Template.scenes t).
  - by rewrite H.
Qed.

(** C7. A production starts only from a draft with at least one
    scene.  Submitting a template with no name or no scene only
    raises the alert, and nothing is sent; a submission is sent
    exactly when the template has a name and a scene.  The dashboard
    offers the start button only on projects whose status is
    [draft].  The production entry point fails with
    [InvalidProjectState] on a project that is not a draft or has no
    scene, and what it accepts is a draft with a scene, which it marks
    in progress. *)
Theorem production_preconditions :
  (forall o t, Template.name t = "" \/ Template.scenes t = [] ->
     handleSubmit o t
     = [PreventDefault;
        Alert "Por favor completa el nombre y agrega al menos una escena"])
  /\ (forall o t, In (CreateProject t true) (handleSubmit o t)
                  <-> Template.name t <> "" /\ Template.scenes t <> [])
  /\ (forall p, In Dashboard.StartProduction (Dashboard.project_actions p)
                <-> Dashboard.status p = "draft")
  /\ (forall p, Dashboard.status p <> "draft" \/ default [] (Dashboard.scenes p) = [] ->
        Orchestrator.produce_entry p = inl Orchestrator.InvalidProjectState)
  /\ (forall p p', Orchestrator.produce_entry p = inr p' ->
        Dashboard.status p = "draft"
        /\ (1 <= length (default [] (Dashboard.scenes p)))%nat
        /\ p' = Orchestrator.set_status "in_progress" p).
Proof.
  split; [|split; [|split; [|split]]].
  - intros o t H. apply submit_guard in H. unfold handleSubmit. by rewrite H.
  - intros o t. unfold handleSubmit.
    destruct (String.eqb (Template.name t) "" || (length (Template.scenes t) =? 0)%nat)
      eqn:Hg.
    + apply submit_guard in Hg. split.
      * intros [H|[H|[]]]; discriminate.
      * intros [Hn Hs]. destruct Hg; contradiction.
    + split; [intros _ | intros _; right; by left].
      split; intros H; rewrite (proj2 (submit_guard t)) in Hg; auto; discriminate.
  - intros p. unfold Dashboard.project_actions.
    destruct (String.eqb_spec (Dashboard.status p) "draft") as [Hd|Hd].
    + split; [done | intros _; by left].
    + split; [|done]. simpl.
      destruct (String.eqb (Dashboard.status p) "completed"
                && bool_decide (is_Some (Dashboard.final_video p)));
        simpl; intros H; repeat destruct H as [H|H]; discriminate || contradiction.
  - intros p H. unfold Orchestrator.produce_entry.
    destruct (String.eqb_spec (Dashboard.status p) "draft") as [Hd|Hd]; simpl; [|done].
    destruct H as [H|H]; [contradiction|]. by rewrite H.
  - intros p p'. unfold Orchestrator.produce_entry.
    destruct (String.eqb_spec (Dashboard.status p) "draft") as [Hd|Hd];
      destruct (Nat.leb_spec 1 (length (default [] (Dashboard.scenes p))));
      simpl; try done.
    intros [= <-]. done.
Qed.

Lemma production_preconditions_witness :
  handleSubmit Created initial_template
  = [PreventDefault; Alert "Por favor completa el nombre y agrega al menos una escena"]
  /\ In (CreateProject Examples.perfume_template true)
        (handleSubmit Created Examples.perfume_template)
  /\ In Dashboard.StartProduction (Dashboard.project_actions Examples.draft_project)
  /\ Orchestrator.produce_entry (Orchestrator.set_status "in_progress" Examples.draft_project)
     = inl Orchestrator.InvalidProjectState
  /\ Dashboard.status Examples.draft_project = "draft".
Proof.
  destruct production_preconditions as (Hreject & Hsend & Hbutton & Hfail & Hpass).
  split; [apply Hreject; by left|].
  split; [apply Hsend; split; discriminate|].
  split; [by apply Hbutton|].
  split; [apply Hfail; left; discriminate|].
  exact (proj1 (Hpass Examples.draft_project _ eq_refl)).
Defined.

End Production.

(** ** Continuity validation *)
Section Validation.
Import ContinuityValidator.

(** C2, as stated, fails on the component: validating the sample
    lists sends a request to the validation service, and with the same
    two lists the report that ends up displayed changes with the
    service's reply. *)
Lemma validator_calls_service :
  let run o := validateContinuity (Some [Examples.bottle]) (Some []) o initial in
  requests (snd (run (Resolved Examples.report_ok))) <> []
  /\ validation (fst (run (Resolved Examples.report_ok)))
     <> validation (fst (run (Resolved Examples.report_missing_bottle)))
  /\ Api.is_valid <$> validation (fst (run (Resolved Examples.report_ok))) = Some true
  /\ Api.is_valid <$> validation (fst (run (Resolved Examples.report_missing_bottle)))
     = Some false
  /\ validation (fst (run (Rejected "Failed to fetch"))) = None.
Proof. simpl. repeat split; discriminate. Qed.

(** C2, amended. Validating two element lists sends exactly one
    request, a POST of both lists to the validation service, and the
    report the component holds afterwards is the reply of that
    service, so two runs on the same lists show the same warnings,
    suggestions and validity whenever the service replies the same (as
    it does when it answers with the comparison of the two lists);
    when the request fails the report held before is kept.  When
    either list is missing nothing is sent and nothing changes. *)
Theorem validator_delegates previous current o c :
  requests (snd (validateContinuity (Some previous) (Some current) o c))
  = [Fetch "http://localhost:8003/api/continuity/validate" "POST"
           {| previous_elements := previous; current_elements := current |}]
  /\ validation (fst (validateContinuity (Some previous) (Some current) o c))
     = match o with
       | Resolved result => Some result
       | Rejected _ => validation c
       end
  /\ loading (fst (validateContinuity (Some previous) (Some current) o c)) = false
  /\ (forall drifts c',
        validation (fst (validateContinuity (Some previous) (Some current)
                           (Resolved (validate drifts previous current)) c'))
        = Some (validate drifts previous current))
  /\ validateContinuity None (Some current) o c = (c, [])
  /\ validateContinuity (Some previous) None o c = (c, []).
Proof. by destruct o. Qed.

Section Comparison.
Variable drifts : string -> string -> bool.

Lemma same_type_iff e c : same_type e c = true <-> Api.type e = Api.type c.
Proof. apply String.eqb_eq. Qed.

(** No element of [current] has the type of [e]. *)
Lemma filter_same_type_nil e current :
  List.filter (same_type e) current = []
  <-> forall c, In c current -> Api.type c <> Api.type e.
Proof.
  split.
  - intros Hnil c Hc Heq.
    assert (Hin : In c (List.filter (same_type e) current))
      by (apply filter_In; split; [done | by apply same_type_iff]).
    by rewrite Hnil in Hin.
  - intros Hall. destruct (List.filter (same_type e) current) as [|c found] eqn:Hf; [done|].
    assert (Hc : In c (List.filter (same_type e) current)) by (rewrite Hf; by left).
    apply filter_In in Hc as [Hc Ht]. apply same_type_iff in Ht.
    by destruct (Hall c Hc).
Qed.

(** The warnings for one element: at most one, HIGH exactly when
    its type is missing. *)
Lemma compare_element_high current e w :
  In w (compare_element drifts current e) -> is_high w = true ->
  w = Api.Warning "high" (Api.type e) "element absent in current scene"
  /\ List.filter (same_type e) current = [].
Proof.
  unfold compare_element.
  destruct (List.filter (same_type e) current) as [|c found].
  - by intros [<-|[]] _.
  - destruct (forallb _ _); [|done]. by intros [<-|[]] Hh.
Qed.

Lemma compare_element_same l e :
  (forall d, drifts d d = false) -> In e l -> compare_element drifts l e = [].
Proof.
  intros Hrefl He. unfold compare_element.
  assert (Hin : In e (List.filter (same_type e) l))
    by (apply filter_In; split; [done | by apply same_type_iff]).
  destruct (List.filter (same_type e) l) as [|c found]; [done|].
  destruct (forallb _ _) eqn:Hall; [|done].
  rewrite forallb_forall in Hall. specialize (Hall e Hin). by rewrite Hrefl in Hall.
Qed.

Lemma flat_map_nil {A B} (f : A -> list B) l :
  (forall x, In x l -> f x = []) -> flat_map f l = [].
Proof.
  induction l as [|x l IH]; simpl; intros H; [done|].
  rewrite (H x), IH; auto.
Qed.

(** C3. For each element of the previous list whose type is absent
    from the current list the report has a HIGH warning naming that
    type, and every HIGH warning is of that kind; the report is
    valid exactly when it has no HIGH warning.  A lone bottle
    against an empty current list gives an invalid report whose only
    warning is HIGH and names the bottle; a list against itself
    gives a valid report with no warning (a description does not
    drift from itself). *)
Theorem validator_reports_missing_elements :
  (forall previous current e,
     In e previous -> (forall c, In c current -> Api.type c <> Api.type e) ->
     In (Api.Warning "high" (Api.type e) "element absent in current scene")
        (Api.warnings (validate drifts previous current)))
  /\ (forall previous current w,
        In w (Api.warnings (validate drifts previous current)) ->
        Api.severity w = "high" ->
        exists e, In e previous /\ Api.w_element w = Api.type e
                  /\ forall c, In c current -> Api.type c <> Api.type e)
  /\ (forall previous current,
        Api.is_valid (validate drifts previous current) = true
        <-> forall w, In w (Api.warnings (validate drifts previous current)) ->
                      Api.severity w <> "high")
  /\ validate drifts [Api.Element "bottle" "black perfume bottle in hand"] []
     = {| Api.is_valid := false;
          Api.warnings :=
            [Api.Warning "high" "bottle" "element absent in current scene"];
          Api.suggestions :=
            ["reintroduce element bottle with consistent description"] |}
  /\ ((forall d, drifts d d = false) ->
      forall elements,
        validate drifts elements elements
        = {| Api.is_valid := true; Api.warnings := []; Api.suggestions := [] |}).
Proof.
  split; [|split; [|split; [|split]]].
  - intros previous current e He Hmissing. simpl.
    apply in_flat_map. exists e. split; [done|].
    unfold compare_element.
    rewrite (proj2 (filter_same_type_nil e current) Hmissing). by left.
  - intros previous current w Hw Hsev. simpl in Hw.
    apply in_flat_map in Hw as (e & He & Hw).
    destruct (compare_element_high current e w Hw) as [-> Hnil].
    { unfold is_high. by rewrite Hsev. }
    exists e. split; [done|]. split; [done|]. by apply filter_same_type_nil.
  - intros previous current. simpl.
    rewrite negb_true_iff, <- not_true_iff_false, existsb_exists. split.
    + intros Hnone w Hw Hsev. apply Hnone. exists w. split; [done|].
      unfold is_high. by rewrite Hsev.
    + intros Hnone (w & Hw & Hh). apply (Hnone w Hw). by apply String.eqb_eq.
  - reflexivity.
  - intros Hrefl elements. unfold validate.
    rewrite flat_map_nil; [done|]. intros e He. by apply compare_element_same.
Qed.

End Comparison.

Lemma validator_reports_missing_elements_witness :
  validate Examples.differs [Examples.bottle; Api.Element "table" "glossy table"]
                            [Api.Element "table" "glossy table"]
  = Examples.report_missing_bottle
  /\ validate Examples.differs [Examples.bottle] [Examples.bottle] = Examples.report_ok
  /\ In (Api.Warning "high" "bottle" "element absent in current scene")
        (Api.warnings (validate Examples.differs [Examples.bottle] [])).
Proof.
  destruct (validator_reports_missing_elements Examples.differs)
    as (Hmissing & _ & _ & _ & Hsame).
  split; [reflexivity|]. split.
  - apply Hsame. intros d. unfold Examples.differs. by rewrite String.eqb_refl.
  - apply (Hmissing [Examples.bottle] [] Examples.bottle); [by left | by intros c []].
Defined.

End Validation.

(** ** Removing, adding and editing scenes *)
Section Scenes.
Import Session.

Lemma filter_index_after {A} (index k : nat) (l : list A) :
  (index < k)%nat -> Js.filter_index (fun i => negb (i =? index)%nat) k l = l.
Proof.
  revert k. induction l as [|x l IH]; intros k Hk; simpl; [done|].
  destruct (Nat.eqb_spec k index); [lia|]. simpl. rewrite IH; [done | lia].
Qed.

Lemma filter_index_delete {A} (index : nat) (l : list A) :
  forall k, (k <= index)%nat ->
    Js.filter_index (fun i => negb (i =? index)%nat) k l = delete (index - k)%nat l.
Proof.
  induction l as [|x l IH]; intros k Hk; simpl; [done|].
  destruct (Nat.eqb_spec k index) as [->|Hne]; simpl.
  - rewrite Nat.sub_diag. simpl. apply filter_index_after. lia.
  - replace (index - k)%nat with (S (index - S k)) by lia. simpl.
    rewrite IH; [done | lia].
Qed.

Lemma removeScene_scenes index t :
  Template.scenes (removeScene index t)
  = imap renumber (delete index (Template.scenes t)).
Proof.
  unfold removeScene; simpl. rewrite filter_index_delete; [|lia].
  by rewrite Nat.sub_0_r.
Qed.

(** X1. [removeScene] takes out exactly the scene at [index] (none when
    [index] is past the end) and keeps the others in order with their
    prompt, emotion, dialogue and other settings; every scene that
    remains gets its new position as [scene_id] and the name
    [Scene <position + 1>], so a name typed by the user is lost. *)
Theorem removeScene_keeps_the_rest index t :
  length (Template.scenes (removeScene index t))
  = (if decide (index < length (Template.scenes t))%nat
     then length (Template.scenes t) - 1 else length (Template.scenes t))%nat
  /\ forall i,
       Template.scenes (removeScene index t) !! i
       = renumber i <$> Template.scenes t !! (if decide (i < index)%nat then i else S i)
       /\ forall s', Template.scenes (removeScene index t) !! i = Some s' ->
            Scene.scene_id s' = i /\ Scene.name s' = scene_name i
            /\ exists s,
                 Template.scenes t !! (if decide (i < index)%nat then i else S i) = Some s
                 /\ Scene.prompt s' = Scene.prompt s
                 /\ Scene.emotion s' = Scene.emotion s
                 /\ Scene.dialogue s' = Scene.dialogue s
                 /\ Scene.duration s' = Scene.duration s
                 /\ Scene.camera_movement s' = Scene.camera_movement s
                 /\ Scene.lighting s' = Scene.lighting s
                 /\ Scene.voice_gender s' = Scene.voice_gender s.
Proof.
  rewrite removeScene_scenes, length_imap. split.
  - case_decide as Hi.
    + apply length_delete. by apply lookup_lt_is_Some.
    + by rewrite delete_take_drop, take_ge, drop_ge, app_nil_r by lia.
  - intros i. rewrite list_lookup_imap, list_lookup_delete. split; [done|].
    intros s' Hs'.
    destruct (Template.scenes t !! (if decide (i < index)%nat then i else S i))
      as [s|]; [|done].
    injection Hs' as <-. simpl. repeat split; eauto 10.
Qed.

Lemma renumber_idempotent i s : renumber i (renumber i s) = renumber i s.
Proof. reflexivity. Qed.

(** The names and ordinals of an add/remove session follow the
    positions. *)
Lemma session_tidy ops :
  imap renumber (Template.scenes (run ops initial_template))
  = Template.scenes (run ops initial_template).
Proof.
  unfold run.
  assert (H : forall t, imap renumber (Template.scenes t) = Template.scenes t ->
                        imap renumber (Template.scenes (foldl perform t ops))
                        = Template.scenes (foldl perform t ops)).
  { induction ops as [|op ops IH]; intros t Ht; simpl; [done|].
    apply IH. destruct op as [|index]; cbn [perform].
    - unfold addScene; simpl. rewrite imap_app, Ht. simpl. by rewrite Nat.add_0_r.
    - rewrite removeScene_scenes. apply list_eq; intros i.
      rewrite !list_lookup_imap. by destruct (delete index (Template.scenes t) !! i). }
  by apply H.
Qed.

(** X2. In a session of additions and removals, adding a scene and
    removing it again gives back the template exactly as it was. *)
Theorem add_then_remove_restores ops :
  let t := run ops initial_template in
  removeScene (length (Template.scenes t)) (addScene t) = t.
Proof.
  intros t. unfold removeScene.
  rewrite filter_index_delete, Nat.sub_0_r by lia.
  unfold addScene at 1; simpl. rewrite delete_middle, app_nil_r.
  unfold t at 1. rewrite session_tidy. fold t. by destruct t.
Qed.

Lemma removeScene_keeps_the_rest_witness :
  Scene.prompt <$> Template.scenes (removeScene 0 Examples.perfume_template)
  = ["La mujer rocia el perfume"]
  /\ Scene.name <$> Template.scenes (removeScene 0 Examples.perfume_template)
     = ["Scene 1"].
Proof.
  destruct (removeScene_keeps_the_rest 0 Examples.perfume_template) as [_ H].
  destruct (H 0%nat) as [_ H0].
  destruct (H0 _ eq_refl) as (_ & _ & s & Hs & _).
  injection Hs as <-. by split.
Defined.








End Scenes.

(** ** The life of an optimization preview *)
Section Previews.

(** X5. Whatever the optimizer answers, [handleOptimize] sends one request
    and leaves the template and the stored analyses alone; it ends with
    [loading] off and the card marked as the one being optimized.  A
    successful answer raises no alert and becomes the pending preview
    of that card.  A refusal or a failed request raises exactly one
    alert and keeps whatever preview was pending before. *)
Theorem optimize_outcomes sceneIndex scene o st :
  Template.scenes (template st) !! sceneIndex = Some scene ->
  exists st' alerts,
    handleOptimize sceneIndex o st
    = Some (st', OptimizePrompt
                   (buildOptimizationRequest (template st) (imageAnalysis st)
                      sceneIndex scene) :: alerts)
    /\ template st' = template st
    /\ imageAnalysis st' = imageAnalysis st
    /\ loading st' = false
    /\ optimizingScene st' = Some sceneIndex
    /\ match o with
       | OptResolved (OptOk optimized validation) =>
           alerts = []
           /\ exists p, optimizationPreview st' = Some p
                /\ Editing.cardPreview sceneIndex st' = Some p
                /\ optimizedData p = optimized
                /\ original_action p = Js.str_or (Scene.prompt scene) "Sin prompt"
       | OptResolved (OptNotOk _) | OptRejected _ =>
           optimizationPreview st' = optimizationPreview st
           /\ exists message, alerts = [Alert message] /\ message <> ""
       end.
Proof.
  intros H. unfold handleOptimize. rewrite H; simpl.
  destruct o as [[optimized validation|error]|message]; simpl;
    eexists _, _; (split; [reflexivity|]); simpl; repeat (split; [done|]).
  - eexists. split; [reflexivity|].
    unfold Editing.cardPreview; simpl. by rewrite Nat.eqb_refl.
  - eexists. split; [reflexivity|]. by apply append_nonempty.
  - eexists. split; [reflexivity|]. by apply append_nonempty.
Qed.

Lemma optimize_outcomes_witness :
  exists st',
    fst <$> handleOptimize 1 (OptRejected "Network Error")
              (Examples.previewing Examples.full_optimization)
    = Some st'
    /\ template st' = Examples.perfume_template
    /\ optimizationPreview st'
       = optimizationPreview (Examples.previewing Examples.full_optimization).
Proof.
  edestruct (optimize_outcomes 1 _ (OptRejected "Network Error")
               (Examples.previewing Examples.full_optimization) eq_refl)
    as (st' & alerts & Hrun & Htemplate & _ & _ & _ & Hpreview & _).
  exists st'. rewrite Hrun. split; [reflexivity|]. split; [exact Htemplate | exact Hpreview].
Defined.

Lemma removeScene_lookup index t i :
  Template.scenes (removeScene index t) !! i
  = renumber i <$> Template.scenes t !! (if decide (i < index)%nat then i else S i).
Proof. by rewrite removeScene_scenes, list_lookup_imap, list_lookup_delete. Qed.

(** X6. Accepting the preview that a successful optimization left on a
    card writes the optimized action and emotion into that card (each
    falling back to the alternative key and then to the scene's own
    value) and clears the preview, so that accepting once more changes
    nothing.  Rejecting it instead leaves the template exactly as it
    was before the optimization was asked for. *)
Theorem accept_after_optimize sceneIndex scene optimized validation st :
  Template.scenes (template st) !! sceneIndex = Some scene ->
  exists st2 scene2,
    Editing.run [Editing.Optimize sceneIndex (OptResolved (OptOk optimized validation));
                 Editing.Accept] st
    = Some st2
    /\ Template.scenes (template st2) !! sceneIndex = Some scene2
    /\ Scene.prompt scene2
       = Js.opt_or (Api.action optimized)
           (Js.opt_or (Api.optimized_action optimized) (Scene.prompt scene))
    /\ Scene.emotion scene2
       = Js.opt_or (Api.emotion optimized)
           (Js.opt_or (Api.optimized_emotion optimized) (Scene.emotion scene))
    /\ optimizationPreview st2 = None
    /\ optimizingScene st2 = None
    /\ Editing.step st2 Editing.Accept = Some st2
    /\ exists st3,
         Editing.run [Editing.Optimize sceneIndex (OptResolved (OptOk optimized validation));
                      Editing.Reject] st
         = Some st3
         /\ template st3 = template st
         /\ optimizationPreview st3 = None.
Proof.
  intros H. simpl. unfold handleOptimize. rewrite H; simpl.
  unfold applyOptimization; simpl. rewrite H; simpl.
  eexists _, _. split; [reflexivity|]. simpl.
  split; [apply list_lookup_insert_eq; by eapply lookup_lt_Some|]. simpl.
  repeat (split; [done|]). by eexists.
Qed.

Lemma accept_after_optimize_witness :
  exists st2,
    Editing.run [Editing.Optimize 1
                   (OptResolved (OptOk Examples.full_optimization Examples.no_issues));
                 Editing.Accept] Examples.perfume
    = Some st2
    /\ Examples.prompt_at 1 (Some st2)
       = Some "Woman gracefully sprays the perfume, slow dolly in"
    /\ optimizationPreview st2 = None.
Proof.
  edestruct (accept_after_optimize 1 _ Examples.full_optimization Examples.no_issues
               Examples.perfume eq_refl)
    as (st2 & scene2 & Hrun & Hscene & Hprompt & _ & Hcleared & _).
  exists st2. split; [exact Hrun|]. split; [|exact Hcleared].
  unfold Examples.prompt_at; simpl. rewrite Hscene; simpl. by rewrite Hprompt.
Defined.

(** X7. The text the preview panel shows as the optimized action is the
    optimizer's [action], or [N/A] when that is missing, while
    accepting also reads [optimized_action]: when [action] is there the
    prompt written on accept is the text that was shown, and when it
    is missing the panel shows [N/A] although accepting writes the
    [optimized_action] (or keeps the prompt when that is missing
    too).  The text shown as the original is the scene's prompt. *)
Theorem preview_shows_action sceneIndex scene optimized validation st :
  Template.scenes (template st) !! sceneIndex = Some scene ->
  exists st1 effects p st2 scene2,
    handleOptimize sceneIndex (OptResolved (OptOk optimized validation)) st
    = Some (st1, effects)
    /\ Editing.cardPreview sceneIndex st1 = Some p
    /\ applyOptimization st1 = Some st2
    /\ Template.scenes (template st2) !! sceneIndex = Some scene2
    /\ PromptPreview.original (PromptPreview.actionComparison p)
       = Js.str_or (Scene.prompt scene) "Sin prompt"
    /\ (Js.truthy (Api.action optimized) = true ->
          Scene.prompt scene2 = PromptPreview.optimized (PromptPreview.actionComparison p))
    /\ (Js.truthy (Api.action optimized) = false ->
          PromptPreview.optimized (PromptPreview.actionComparison p) = "N/A"
          /\ Scene.prompt scene2
             = Js.opt_or (Api.optimized_action optimized) (Scene.prompt scene)).
Proof.
  intros H. unfold handleOptimize. rewrite H; simpl.
  eexists _, _, _, _, _. split; [reflexivity|].
  split; [unfold Editing.cardPreview; simpl; by rewrite Nat.eqb_refl|].
  split; [unfold applyOptimization; simpl; rewrite H; reflexivity|]. simpl.
  split; [apply list_lookup_insert_eq; by eapply lookup_lt_Some|]. simpl.
  split; [|split].
  - unfold Js.str_or at 1.
    destruct (String.eqb_spec (Js.str_or (Scene.prompt scene) "Sin prompt") "")
      as [Heq|]; [|done].
    by apply str_or_nonempty in Heq.
  - intros Ha. destruct (Api.action optimized) as [a|]; [|done]. simpl in *.
    unfold Js.str_or in *. by destruct (String.eqb a "").
  - intros Ha. by rewrite !(opt_or_falsy _ _ Ha).
Qed.

Lemma preview_shows_action_witness :
  let legacy :=
    {| Api.action := None;
       Api.optimized_action := Some "Woman sprays the perfume";
       Api.emotion := None; Api.optimized_emotion := None;
       Api.dialogue := None; Api.keywords := [] |} in
  exists st1 p st2,
    fst <$> handleOptimize 1 (OptResolved (OptOk legacy Examples.no_issues)) Examples.perfume
    = Some st1
    /\ Editing.cardPreview 1 st1 = Some p
    /\ PromptPreview.optimized (PromptPreview.actionComparison p) = "N/A"
    /\ applyOptimization st1 = Some st2
    /\ Examples.prompt_at 1 (Some st2) = Some "Woman sprays the perfume".
Proof.
  intros legacy.
  edestruct (preview_shows_action 1 _ legacy Examples.no_issues Examples.perfume eq_refl)
    as (st1 & effects & p & st2 & scene2 & Hrun & Hcard & Hacc & Hscene & _ & _ & Hmissing).
  destruct (Hmissing eq_refl) as [Hshown Hwritten].
  exists st1, p, st2. rewrite Hrun. split; [reflexivity|]. split; [exact Hcard|].
  split; [exact Hshown|]. split; [exact Hacc|].
  unfold Examples.prompt_at; simpl. rewrite Hscene; simpl. by rewrite Hwritten.
Defined.

(** X8. A pending preview is tied to a position, not to a scene.  When a
    scene at or before that position is removed, the preview stays on
    the same position, and accepting it writes the optimization made
    for the old scene into the scene that has moved up into its
    place. *)
Theorem preview_outlives_removal st p index next :
  optimizationPreview st = Some p ->
  (index <= sceneIndex p)%nat ->
  Template.scenes (template st) !! S (sceneIndex p) = Some next ->
  exists st1 st2 scene2,
    Editing.step st (Editing.RemoveScene index) = Some st1
    /\ Editing.cardPreview (sceneIndex p) st1 = Some p
    /\ Editing.step st1 Editing.Accept = Some st2
    /\ Template.scenes (template st2) !! sceneIndex p = Some scene2
    /\ Scene.prompt scene2
       = Js.opt_or (Api.action (optimizedData p))
           (Js.opt_or (Api.optimized_action (optimizedData p)) (Scene.prompt next))
    /\ Scene.dialogue scene2 = Scene.dialogue next.
Proof.
  intros Hp Hi Hnext. simpl.
  assert (Hcard : is_Some (Template.scenes (template st) !! index)).
  { apply lookup_lt_is_Some. apply lookup_lt_Some in Hnext. lia. }
  destruct Hcard as [removed ->]. simpl.
  assert (Hmoved : Template.scenes (removeScene index (template st)) !! sceneIndex p
                   = Some (renumber (sceneIndex p) next)).
  { rewrite removeScene_lookup. case_decide; [lia|]. by rewrite Hnext. }
  destruct (applyOptimization_spec
              (setTemplate (removeScene index (template st)) st) p _ Hp Hmoved)
    as (st2 & Hacc & Hscene & _).
  eexists _, st2, _. split; [reflexivity|].
  split; [unfold Editing.cardPreview; simpl; rewrite Hp; simpl; by rewrite Nat.eqb_refl|].
  split; [exact Hacc|]. split; [exact Hscene|]. done.
Qed.

Lemma preview_outlives_removal_witness :
  let st :=
    setTemplate (addScene Examples.perfume_template)
      (Examples.previewing Examples.full_optimization) in
  exists st1 st2,
    Editing.step st (Editing.RemoveScene 0) = Some st1
    /\ Editing.step st1 Editing.Accept = Some st2
    /\ Scene.prompt <$> Template.scenes (template st2)
       = ["La mujer rocia el perfume";
          "Woman gracefully sprays the perfume, slow dolly in"].
Proof.
  intros st.
  edestruct (preview_outlives_removal st _ 0 _ eq_refl (le_S 0 0 (le_n 0)) eq_refl)
    as (st1 & st2 & scene2 & Hremove & _ & Haccept & _).
  exists st1, st2. split; [exact Hremove|]. split; [exact Haccept|].
  vm_compute in Hremove. injection Hremove as <-.
  vm_compute in Haccept. by injection Haccept as <-.
Defined.

(** X9. Stored analyses are tied to positions too, and removing a scene
    does not shift them: after the first scene is removed, the
    optimization request for the scene that is now first carries the
    image analysis that was captured for the removed one. *)
Theorem image_context_outlives_removal st first second o :
  Template.scenes (template st) !! 0%nat = Some first ->
  Template.scenes (template st) !! 1%nat = Some second ->
  exists st1 st2 request alerts,
    Editing.step st (Editing.RemoveScene 0) = Some st1
    /\ imageAnalysis st1 = imageAnalysis st
    /\ handleOptimize 0 o st1 = Some (st2, OptimizePrompt request :: alerts)
    /\ action request = Scene.prompt second
    /\ image_context request = imageAnalysis st !! 0%nat.
Proof.
  intros Hfirst Hsecond.
  assert (Hmoved : Template.scenes (removeScene 0 (template st)) !! 0%nat
                   = Some (renumber 0 second)).
  { rewrite removeScene_lookup. case_decide; [lia|]. by rewrite Hsecond. }
  assert (Hopt : exists st2 request alerts,
             handleOptimize 0 o (setTemplate (removeScene 0 (template st)) st)
             = Some (st2, OptimizePrompt request :: alerts)
             /\ action request = Scene.prompt second
             /\ image_context request = imageAnalysis st !! 0%nat).
  { unfold handleOptimize; cbn -[removeScene]. rewrite Hmoved; cbn -[removeScene].
    destruct o as [[optimized validation|error]|message]; cbn -[removeScene];
      eexists _, _, _; (split; [reflexivity|]); cbn;
      (split; [apply str_or_empty | done]). }
  destruct Hopt as (st2 & request & alerts & Hrun & Haction & Hcontext).
  exists (setTemplate (removeScene 0 (template st)) st), st2, request, alerts.
  cbn -[removeScene]. rewrite Hfirst. by cbn -[removeScene].
Qed.

Lemma image_context_outlives_removal_witness :
  exists st1 st2 request alerts,
    Editing.step Examples.analysed (Editing.RemoveScene 0) = Some st1
    /\ handleOptimize 0 (OptRejected "Network Error") st1
       = Some (st2, OptimizePrompt request :: alerts)
    /\ action request = "La mujer rocia el perfume"
    /\ image_context request = Some Examples.product_image.
Proof.
  edestruct (image_context_outlives_removal Examples.analysed _ _
               (OptRejected "Network Error") eq_refl eq_refl)
    as (st1 & st2 & request & alerts & Hremove & _ & Hrun & Haction & Hcontext).
  exists st1, st2, request, alerts. split; [exact Hremove|]. split; [exact Hrun|].
  split; [exact Haction | exact Hcontext].
Defined.

End Previews.

(** ** Images dropped on a scene card *)
Section Uploads.
Import FrameUploader.

Lemma analysisComplete_stores index scene analysis st :
  Template.scenes (template st) !! index = Some scene ->
  exists st',
    analysisComplete index analysis st = Some st'
    /\ imageAnalysis st' = <[index := analysis]> (imageAnalysis st)
    /\ (forall j, j <> index ->
          Template.scenes (template st') !! j = Template.scenes (template st) !! j)
    /\ length (Template.scenes (template st')) = length (Template.scenes (template st))
    /\ optimizationPreview st' = optimizationPreview st.
Proof.
  intros H. unfold analysisComplete, onAnalysisComplete, updateScene.
  rewrite H; simpl. rewrite H; simpl.
  assert (Hlen : forall s, length (<[index:=s]> (Template.scenes (template st)))
                           = length (Template.scenes (template st)))
    by (intros; apply length_insert).
  assert (Hne : forall s j, j <> index ->
                  <[index:=s]> (Template.scenes (template st)) !! j
                  = Template.scenes (template st) !! j)
    by (intros; by apply list_lookup_insert_ne).
  destruct (index =? 0)%nat;
    [destruct (negb _) | destruct (negb _ && negb _)];
    eexists; (split; [reflexivity|]); simpl; auto.
Qed.

(** X10. When the analysis of a dropped image succeeds, the uploader shows
    the image and the analysis without an error, and the editor stores
    the analysis under the position of the card; the analyses and the
    scenes of the other cards are untouched and no scene is added or
    removed. *)
Theorem analysis_reaches_the_editor index scene fileType base64Data a u st :
  Template.scenes (template st) !! index = Some scene ->
  exists u' st',
    frameDropped index fileType base64Data (Resolved (Ok a)) u st = Some (u', st')
    /\ analysis u' = Some a /\ error u' = None
    /\ isAnalyzing u' = false /\ preview u' = Some base64Data
    /\ imageAnalysis st' !! index = Some a
    /\ (forall j, j <> index ->
          imageAnalysis st' !! j = imageAnalysis st !! j
          /\ Template.scenes (template st') !! j = Template.scenes (template st) !! j)
    /\ length (Template.scenes (template st')) = length (Template.scenes (template st)).
Proof.
  intros H.
  destruct (analysisComplete_stores index scene a st H)
    as (st' & Hrun & Himages & Hscenes & Hlen & _).
  unfold frameDropped, processImage; simpl. rewrite Hrun; simpl.
  eexists _, st'. split; [reflexivity|]. simpl. repeat (split; [done|]).
  rewrite Himages. split; [apply lookup_insert_eq|]. split; [|done].
  intros j Hj. split; [by apply lookup_insert_ne | by apply Hscenes].
Qed.

Lemma analysis_reaches_the_editor_witness :
  exists u' st',
    frameDropped 1 "image/png" "data:image/png;base64,AAAA"
      (Resolved (Ok Examples.last_frame)) Examples.analysed_uploader Examples.perfume
    = Some (u', st')
    /\ analysis u' = Some Examples.last_frame
    /\ imageAnalysis st' !! 1%nat = Some Examples.last_frame
    /\ imageAnalysis st' !! 0%nat = None.
Proof.
  edestruct (analysis_reaches_the_editor 1 _ "image/png" "data:image/png;base64,AAAA"
               Examples.last_frame Examples.analysed_uploader Examples.perfume eq_refl)
    as (u' & st' & Hrun & Hshown & _ & _ & _ & Hstored & Hothers & _).
  exists u', st'. split; [exact Hrun|]. split; [exact Hshown|]. split; [exact Hstored|].
  destruct (Hothers 0%nat) as [-> _]; [discriminate | reflexivity].
Defined.

(** X11. Once the cards at two neighbouring positions have each received an
    analysis, the continuity validator of the second card is rendered
    with the tracked elements of the two analyses (an analysis without
    tracked elements counts as an empty list); the first card never
    has a validator. *)
Theorem validator_after_analyses index st previous current a1 a2 :
  Template.scenes (template st) !! index = Some previous ->
  Template.scenes (template st) !! S index = Some current ->
  exists st',
    Editing.run [Editing.AnalysisComplete index a1;
                 Editing.AnalysisComplete (S index) a2] st
    = Some st'
    /\ validatorProps (S index) st'
       = Some (default [] (Api.tracked_elements a1), default [] (Api.tracked_elements a2))
    /\ validatorProps 0 st' = None.
Proof.
  intros Hp Hc. simpl.
  destruct (analysisComplete_stores index previous a1 st Hp)
    as (st1 & -> & Himages1 & Hscenes1 & _). simpl.
  assert (Hc1 : Template.scenes (template st1) !! S index = Some current)
    by (rewrite Hscenes1; [done | lia]).
  destruct (analysisComplete_stores (S index) current a2 st1 Hc1)
    as (st2 & -> & Himages2 & _). simpl.
  exists st2. split; [done|]. split; [|done].
  assert (H1 : imageAnalysis st2 !! index = Some a1).
  { rewrite Himages2, Himages1, lookup_insert_ne by lia. apply lookup_insert_eq. }
  assert (H2 : imageAnalysis st2 !! S index = Some a2)
    by (rewrite Himages2; apply lookup_insert_eq).
  unfold validatorProps; simpl. rewrite Nat.sub_0_r, H1; simpl. by rewrite H2.
Qed.

Lemma validator_after_analyses_witness :
  exists st',
    Editing.run [Editing.AnalysisComplete 0 Examples.product_image;
                 Editing.AnalysisComplete 1 Examples.last_frame] Examples.perfume
    = Some st'
    /\ validatorProps 1 st' = Some ([Examples.bottle], [Examples.bottle]).
Proof.
  edestruct (validator_after_analyses 0 Examples.perfume _ _
               Examples.product_image Examples.last_frame eq_refl eq_refl)
    as (st' & Hrun & Hprops & _).
  exists st'. split; [exact Hrun | exact Hprops].
Defined.

(** X12. A dropped file is analysed only when its type starts with
    [image/]: any other file, or no file, only ends the dragging
    state, sends nothing and makes no callback.  The request that is
    sent carries the file's type and the [isFirstScene] flag of the
    card.  A file chosen through the file dialog is sent whatever its
    type. *)
Theorem drop_accepts_images_only isFirstScene f o u :
  (forall u' body called,
     DropZone.handleDrop isFirstScene f o u = (u', Some body, called) ->
     exists file,
       f = Some file
       /\ String.prefix "image/" (DropZone.type file) = true
       /\ mime_type body = DropZone.type file
       /\ is_first_scene body = isFirstScene
       /\ isDragging u' = false)
  /\ (forall u' called,
        DropZone.handleDrop isFirstScene f o u = (u', None, called) ->
        u' = DropZone.setIsDragging false u /\ called = None)
  /\ (forall file,
        f = Some file ->
        exists u' body called,
          DropZone.handleFileSelect isFirstScene f o u = (u', Some body, called)
          /\ mime_type body = DropZone.type file).
Proof.
  split; [|split].
  - intros u' body called. unfold DropZone.handleDrop.
    destruct f as [file|]; [|done].
    destruct (String.prefix "image/" (DropZone.type file)) eqn:Himage; [|done].
    unfold processImage, analyzeFrame.
    destruct o as [[a|e]|m]; intros [= <- <- <-]; by exists file.
  - intros u' called. unfold DropZone.handleDrop.
    destruct f as [file|]; [|by intros [= <- <-]].
    destruct (String.prefix "image/" (DropZone.type file)); [|by intros [= <- <-]].
    unfold processImage, analyzeFrame. by destruct o as [[a|e]|m].
  - intros file ->. unfold DropZone.handleFileSelect, processImage, analyzeFrame.
    destruct o as [[a|e]|m]; by eexists _, _, _.
Qed.

Lemma drop_accepts_images_only_witness :
  let pdf := {| DropZone.type := "application/pdf";
                DropZone.dataUrl := "data:application/pdf;base64,AAAA" |} in
  DropZone.handleDrop false (Some pdf) (Resolved (Ok Examples.last_frame))
    Examples.analysed_uploader
  = (Examples.analysed_uploader, None, None)
  /\ exists u' body called,
       DropZone.handleFileSelect false (Some pdf) (Resolved (Ok Examples.last_frame))
         Examples.analysed_uploader
       = (u', Some body, called)
       /\ mime_type body = "application/pdf".
Proof.
  intros pdf.
  destruct (drop_accepts_images_only false (Some pdf) (Resolved (Ok Examples.last_frame))
              Examples.analysed_uploader) as (_ & Hnone & Hselect).
  split; [reflexivity|]. exact (Hselect pdf eq_refl).
Defined.

End Uploads.

(** ** The data URL of a dropped image *)
Section DataUrls.
Import FrameUploader.

Lemma includes_comma_cons c s :
  Js.includes (String c s) "," = false ->
  Ascii.eqb c "," = false /\ Js.includes s "," = false.
Proof.
  change (Js.includes (String c s) ",")
    with (String.prefix "," (String c s) || Js.includes s ",").
  intros H. apply orb_false_elim in H as [Hc Hs]. split; [|done].
  cbn [String.prefix] in Hc.
  destruct (ascii_dec "," c) as [<-|Hne]; [by destruct s|].
  apply Ascii.eqb_neq. congruence.
Qed.

Lemma until_comma_id s : Js.includes s "," = false -> Js.until_comma s = s.
Proof.
  induction s as [|c s IH]; [done|]. intros H.
  apply includes_comma_cons in H as [Hc Hs]. simpl. by rewrite Hc, IH.
Qed.

Lemma second_piece_none s : Js.includes s "," = false -> Js.second_piece s = None.
Proof.
  induction s as [|c s IH]; [done|]. intros H.
  apply includes_comma_cons in H as [Hc Hs]. simpl. by rewrite Hc, IH.
Qed.

Lemma second_piece_payload header payload :
  Js.includes header "," = false ->
  Js.second_piece (header +:+ "," +:+ payload) = Some (Js.until_comma payload).
Proof.
  induction header as [|c header IH]; [done|]. intros H.
  apply includes_comma_cons in H as [Hc Hs]. rewrite append_cons. simpl.
  by rewrite Hc, IH.
Qed.

(** X13. The image data sent for analysis is the part of the data URL after
    its comma: for a URL made of a header and a payload that hold no
    comma themselves, the request carries exactly the payload, with the
    file's type as MIME type.  A URL without any comma still sends a
    request, with no image data in it. *)
Theorem image_data_is_the_payload isFirstScene fileType header payload o u :
  Js.includes header "," = false ->
  Js.includes payload "," = false ->
  (exists u' called,
     processImage isFirstScene fileType (header +:+ "," +:+ payload) o u
     = (u', {| image_data := Some payload; mime_type := fileType;
               is_first_scene := isFirstScene |}, called)
     /\ preview u' = Some (header +:+ "," +:+ payload))
  /\ exists u' called,
       processImage isFirstScene fileType header o u
       = (u', {| image_data := None; mime_type := fileType;
                 is_first_scene := isFirstScene |}, called).
Proof.
  intros Hh Hp. unfold processImage, analyzeFrame.
  rewrite second_piece_payload, until_comma_id, second_piece_none by done.
  split; destruct o as [[a|e]|m]; by eexists _, _.
Qed.

Lemma image_data_is_the_payload_witness :
  exists u' called,
    processImage true "image/png" "data:image/png;base64,iVBORw0KGgo="
      (Resolved (Ok Examples.product_image)) Examples.analysed_uploader
    = (u', {| image_data := Some "iVBORw0KGgo="; mime_type := "image/png";
              is_first_scene := true |}, called).
Proof.
  destruct (image_data_is_the_payload true "image/png" "data:image/png;base64"
              "iVBORw0KGgo=" (Resolved (Ok Examples.product_image))
              Examples.analysed_uploader eq_refl eq_refl)
    as [(u' & called & Hrun & _) _].
  by exists u', called.
Defined.

End DataUrls.

(** ** Submitting a template *)
Section Submission.

(** X14. A submission that passes the guard posts the template once, with
    the automatic mode on, and the editor goes back to the dashboard
    exactly when the project was created; a refused or failed
    submission never navigates.  Every submission ends with exactly one
    alert. *)
Theorem submit_navigates_on_success o t :
  (In (Navigate "/") (handleSubmit o t)
   <-> Template.name t <> "" /\ Template.scenes t <> [] /\ o = Created)
  /\ (forall t' autoMode, In (CreateProject t' autoMode) (handleSubmit o t) ->
        t' = t /\ autoMode = true)
  /\ (exists message,
        List.filter (fun e => match e with Alert _ => true | _ => false end)
                    (handleSubmit o t)
        = [Alert message])
  /\ (Template.name t <> "" -> Template.scenes t <> [] ->
      handleSubmit Created t
      = [PreventDefault; CreateProject t true;
         Alert "¡Proyecto creado exitosamente!"; Navigate "/"]).
Proof.
  unfold handleSubmit.
  destruct (String.eqb (Template.name t) "" || (length (Template.scenes t) =? 0)%nat)
    eqn:Hg.
  - apply submit_guard in Hg. split; [|split; [|split]].
    + split; [intros [H|[H|[]]]; discriminate|]. intros (Hn & Hs & _). by destruct Hg.
    + intros t' a [H|[H|[]]]; discriminate.
    + by eexists.
    + intros Hn Hs. by destruct Hg.
  - assert (Hok : Template.name t <> "" /\ Template.scenes t <> []).
    { split; intros H; rewrite (proj2 (submit_guard t)) in Hg; auto; discriminate. }
    destruct Hok as [Hn Hs]. destruct o as [|message]; (split; [|split; [|split]]).
    + split; [done|]. intros _. simpl. auto.
    + intros t' a [H|[H|[H|[H|[]]]]]; try discriminate. by injection H as <- <-.
    + by eexists.
    + done.
    + split; [|intros (_ & _ & H); discriminate].
      intros [H|[H|[H|[]]]]; discriminate.
    + intros t' a [H|[H|[H|[]]]]; try discriminate. by injection H as <- <-.
    + by eexists.
    + done.
Qed.

Lemma submit_navigates_on_success_witness :
  handleSubmit Created Examples.perfume_template
  = [PreventDefault; CreateProject Examples.perfume_template true;
     Alert "¡Proyecto creado exitosamente!"; Navigate "/"]
  /\ ~ In (Navigate "/") (handleSubmit (CreateFailed "Network Error")
                            Examples.perfume_template).
Proof.
  split; [reflexivity|]. intros H.
  destruct (submit_navigates_on_success (CreateFailed "Network Error")
              Examples.perfume_template) as [Hnav _].
  apply Hnav in H as (_ & _ & H). discriminate.
Defined.

End Submission.

(** ** The dashboard *)
Section Dashboards.
Import ProjectList.



(** X17. Nothing is deleted without the user's confirmation: an unconfirmed
    delete sends no request and changes nothing.  A confirmed delete
    asks for the removal of that project only; the list is loaded again
    exactly when the removal succeeded, and a failed removal raises an
    alert and keeps the list. *)
Theorem delete_needs_confirmation confirmed o reload projectId d :
  (confirmed = false ->
     handleDelete confirmed o reload projectId d
     = (d, [Confirm "Are you sure you want to delete this project?"]))
  /\ (forall id, In (DeleteProject id) (snd (handleDelete confirmed o reload projectId d)) ->
        confirmed = true /\ id = projectId)
  /\ ((exists query, In (GetProjects query)
                        (snd (handleDelete confirmed o reload projectId d)))
      <-> confirmed = true /\ o = Deleted)
  /\ (forall message, o = DeleteFailed message -> confirmed = true ->
        fst (handleDelete confirmed o reload projectId d) = d
        /\ In (Alert ("Error deleting project: " +:+ message))
              (snd (handleDelete confirmed o reload projectId d))).
Proof.
  unfold handleDelete, loadProjects.
  destruct confirmed.
  - destruct o as [|message]; [destruct reload as [listed|error]|]; simpl.
    + split; [done|]. split; [|split].
      * intros id [H|[H|[H|[]]]]; try discriminate. by injection H as <-.
      * split; [done|]. intros _. eexists. right. right. by left.
      * intros message H; discriminate.
    + split; [done|]. split; [|split].
      * intros id [H|[H|[H|[H|[]]]]]; try discriminate. by injection H as <-.
      * split; [done|]. intros _. eexists. right. right. by left.
      * intros message H; discriminate.
    + split; [done|]. split; [|split].
      * intros id [H|[H|[H|[]]]]; try discriminate. by injection H as <-.
      * split; [|intros [_ H]; discriminate].
        intros [q [H|[H|[H|[]]]]]; discriminate.
      * intros m [= <-] _. auto.
  - simpl. split; [done|]. split; [|split].
    + intros id [H|[]]; discriminate.
    + split; [|intros [H _]; discriminate]. intros [q [H|[]]]; discriminate.
    + intros m _ H; discriminate.
Qed.

Lemma delete_needs_confirmation_witness :
  handleDelete false Deleted (Loaded None) "p1"
    {| projects := [Examples.draft_project]; loading := false; filter := "all" |}
  = ({| projects := [Examples.draft_project]; loading := false; filter := "all" |},
     [Confirm "Are you sure you want to delete this project?"]).
Proof.
  by apply (delete_needs_confirmation false Deleted (Loaded None) "p1").
Defined.

End Dashboards.



(** ** The production monitor *)
Section Monitor.
Import ProductionMonitor.

Lemma find_own_scene (scenes : list Scene.t) :
  NoDup (Scene.scene_id <$> scenes) ->
  forall i scene,
    scenes !! i = Some scene ->
    List.find (fun s => (Scene.scene_id s =? Scene.scene_id scene)%nat) scenes
    = Some scene.
Proof.
  induction scenes as [|s scenes IH]; intros Hnd i scene Hi; [done|].
  rewrite fmap_cons in Hnd. apply NoDup_cons in Hnd as [Hfresh Hnd]. simpl.
  destruct i as [|i]; simpl in Hi.
  - injection Hi as ->. by rewrite Nat.eqb_refl.
  - destruct (Nat.eqb_spec (Scene.scene_id s) (Scene.scene_id scene)) as [Heq|_].
    + destruct Hfresh. rewrite Heq. apply list_elem_of_fmap.
      exists scene. split; [done|]. by eapply list_elem_of_lookup_2.
    + by eapply IH.
Qed.

(** X18. The status shown on a row of the scenes list is looked up through
    the scene's [scene_id].  When the ids of the project's scenes are
    all different, each row shows the number of its position, the name
    of its scene and that scene's own status, with [pending] standing
    for a missing or empty status; the status text is never empty. *)
Theorem monitor_rows_show_own_status m p scenes i scene :
  project m = Some p ->
  Project.scenes p = Some scenes ->
  NoDup (Scene.scene_id <$> scenes) ->
  scenes !! i = Some scene ->
  exists r,
    rows m !! i = Some r
    /\ number r = (i + 1)%nat
    /\ title r = Scene.name scene
    /\ sceneStatus r = Js.opt_or (Scene.status scene) "pending"
    /\ sceneStatus r <> ""
    /\ statusIcon r = getStatusIcon (sceneStatus r)
    /\ length (rows m) = length scenes.
Proof.
  intros Hp Hs Hnd Hi. unfold rows. rewrite Hp, Hs; simpl.
  rewrite list_lookup_imap, Hi; simpl. eexists. split; [reflexivity|]. simpl.
  unfold getSceneStatus. rewrite Hs, (find_own_scene scenes Hnd i scene Hi).
  repeat (split; [done|]). split; [by apply opt_or_nonempty|].
  split; [done | apply length_imap].
Qed.

Lemma monitor_rows_show_own_status_witness :
  let scenes :=
    [{| Scene.scene_id := 0; Scene.name := "Scene 1"; Scene.duration := 15 # 2;
        Scene.emotion := "neutral"; Scene.status := Some "completed" |};
     {| Scene.scene_id := 1; Scene.name := "Scene 2"; Scene.duration := 15 # 2;
        Scene.emotion := "joy"; Scene.status := None |}] in
  let m := {| project := Some {| Project.name := Some "Perfume";
                                 Project.scenes := Some scenes |};
              status := None; loading := false |} in
  exists r,
    rows m !! 1%nat = Some r
    /\ number r = 2%nat /\ sceneStatus r = "pending" /\ statusIcon r = Clock.
Proof.
  intros scenes m.
  assert (Hnd : NoDup (Scene.scene_id <$> scenes)).
  { repeat constructor; rewrite ?list_elem_of_In; simpl; intros H;
      repeat (destruct H as [H|H]; try discriminate H); done. }
  edestruct (monitor_rows_show_own_status m _ scenes 1 _ eq_refl eq_refl Hnd eq_refl)
    as (r & Hrow & Hnumber & _ & Hstatus & _ & Hicon & _).
  exists r. split; [exact Hrow|]. split; [exact Hnumber|]. split; [exact Hstatus|].
  by rewrite Hicon, Hstatus.
Defined.

(** Rows whose scenes share a [scene_id] all show the status of the
    first of them. *)
Lemma shared_id_shares_status :
  let scenes :=
    [{| Scene.scene_id := 0; Scene.name := "Scene 1"; Scene.duration := 15 # 2;
        Scene.emotion := "neutral"; Scene.status := Some "completed" |};
     {| Scene.scene_id := 0; Scene.name := "Scene 2"; Scene.duration := 15 # 2;
        Scene.emotion := "joy"; Scene.status := Some "failed" |}] in
  sceneStatus <$> rows {| project := Some {| Project.name := None;
                                             Project.scenes := Some scenes |};
                          status := None; loading := false |}
  = ["completed"; "completed"].
Proof. reflexivity. Qed.

(** X19. Every poll ends the loading screen.  A poll that fails keeps the
    production status and the project that were shown; a poll that
    succeeds shows the new status, and the project is fetched again
    exactly when that status is [completed]. *)
Theorem poll_outcomes o reload m :
  loading (fst (checkStatus o reload m)) = false
  /\ (forall error, o = PollFailed error ->
        status (fst (checkStatus o reload m)) = status m
        /\ project (fst (checkStatus o reload m)) = project m)
  /\ (forall data, o = Polled data ->
        status (fst (checkStatus o reload m)) = Some data)
  /\ (In GetProject (snd (checkStatus o reload m))
      <-> exists data, o = Polled data /\ Production.status data = Some "completed").
Proof.
  unfold checkStatus, loadProject.
  destruct o as [data|error]; simpl.
  - destruct (Production.status data) as [s|] eqn:Hs;
      [destruct (String.eqb_spec s "completed") as [->|Hc]|].
    + destruct reload; simpl; repeat split; try done;
        try (by intros ? [= <-]); try (intros _; by eexists); auto.
    + repeat split; try done; try (by intros ? [= <-]).
      * intros [H|[]]; discriminate.
      * intros (d & [= <-] & H). rewrite Hs in H. congruence.
    + repeat split; try done; try (by intros ? [= <-]).
      * intros [H|[]]; discriminate.
      * intros (d & [= <-] & H). rewrite Hs in H. discriminate.
  - repeat split; try done; try (by intros ? [= <-]).
    + intros [H|[H|[]]]; discriminate.
    + intros (d & H & _). discriminate.
Qed.

Lemma poll_outcomes_witness :
  let shown :=
    {| Production.status := Some "in_progress"; Production.started_at := None;
       Production.current_scene := Some 1%nat; Production.total_scenes := Some 2%nat;
       Production.error := None |} in
  let m := {| project := None; status := Some shown; loading := true |} in
  checkStatus (PollFailed "Network Error") (ProjectFailed "Network Error") m
  = ({| project := None; status := Some shown; loading := false |},
     [GetProductionStatus; ConsoleError "Error checking status:" "Network Error"])
  /\ status (fst (checkStatus (PollFailed "Network Error")
                    (ProjectFailed "Network Error") m))
     = Some shown.
Proof.
  intros shown m. split; [reflexivity|].
  destruct (poll_outcomes (PollFailed "Network Error") (ProjectFailed "Network Error") m)
    as (_ & Hfailed & _).
  exact (proj1 (Hfailed "Network Error" eq_refl)).
Defined.

End Monitor.

(** ** From a frame analysis to the optimizer *)
Section Continuity.

(** X20. On a later scene the continuity suggestion reaches the optimizer
    through the prompt: once an analysis with a suggestion has arrived
    at a card whose prompt holds no [[CONTINUITY]] tag, the optimization
    request of that card has the marked prompt as its action, and it
    carries no image context although the analysis is stored for the
    card. *)
Theorem marker_reaches_optimizer index scene analysis o st :
  (1 <= index)%nat ->
  Template.scenes (template st) !! index = Some scene ->
  Js.truthy (Api.next_scene_suggestion analysis) = true ->
  Js.includes (Scene.prompt scene) "[CONTINUITY]" = false ->
  exists st1 st2 request alerts,
    analysisComplete index analysis st = Some st1
    /\ imageAnalysis st1 !! index = Some analysis
    /\ handleOptimize index o st1 = Some (st2, OptimizePrompt request :: alerts)
    /\ action request
       = "[CONTINUITY: " +:+ Js.opt_or (Api.next_scene_suggestion analysis) ""
         +:+ "] " +:+ Scene.prompt scene
    /\ image_context request = None.
Proof.
  intros Hi H Hs Hinc.
  destruct (analysisComplete_prompt index scene analysis st H)
    as (st1 & scene1 & Hrun & Hscene1 & Hprompt).
  destruct (analysisComplete_stores index scene analysis st H)
    as (st1' & Hrun' & Himages & _).
  rewrite Hrun in Hrun'. injection Hrun' as <-.
  destruct (Nat.eqb_spec index 0) as [->|Hne]; [lia|].
  rewrite Hs, Hinc in Hprompt. simpl in Hprompt.
  assert (Hopt : exists st2 request alerts,
             handleOptimize index o st1 = Some (st2, OptimizePrompt request :: alerts)
             /\ action request = Scene.prompt scene1
             /\ image_context request = None).
  { unfold handleOptimize. rewrite Hscene1; simpl.
    destruct o as [[optimized validation|error]|message]; simpl;
      eexists _, _, _; (split; [reflexivity|]); simpl;
      (split; [apply str_or_empty|]);
      by destruct (Nat.eqb_spec index 0). }
  destruct Hopt as (st2 & request & alerts & Hopt & Haction & Hcontext).
  exists st1, st2, request, alerts. split; [done|].
  split; [rewrite Himages; apply lookup_insert_eq|]. split; [exact Hopt|].
  split; [by rewrite Haction, Hprompt | exact Hcontext].
Qed.

Lemma marker_reaches_optimizer_witness :
  exists st1 st2 request alerts,
    analysisComplete 1 Examples.last_frame Examples.perfume = Some st1
    /\ handleOptimize 1 (OptRejected "Network Error") st1
       = Some (st2, OptimizePrompt request :: alerts)
    /\ action request
       = "[CONTINUITY: close-up bottle in hand, elegant lighting] La mujer rocia el perfume"
    /\ image_context request = None.
Proof.
  edestruct (marker_reaches_optimizer 1 _ Examples.last_frame
               (OptRejected "Network Error") Examples.perfume
               (le_n 1) eq_refl eq_refl eq_refl)
    as (st1 & st2 & request & alerts & Hrun & _ & Hopt & Haction & Hcontext).
  exists st1, st2, request, alerts. split; [exact Hrun|]. split; [exact Hopt|].
  split; [exact Haction | exact Hcontext].
Defined.

End Continuity.
